(** * load_csv.py: joining CSV rows to buildings through the HTTP API

    A shallow embedding of [etl/join_building_data/load_csv.py] and the
    properties of its row loop, its identifier resolver and its updater.

    Python values are an inductive type, a CSV row (a [dict]) is a finite
    map from column names to values, and the effects of the script (HTTP
    requests, lines printed, exceptions, the unbounded retry loop of the
    [@retry] decorator) are explicit: a computation maps the state of the
    outside world to a result, the next state of the world and the events
    it produced. *)

From Stdlib Require Import ZArith Ascii String List Bool Lia.
From stdpp Require Import base option list gmap strings fin_maps.

Set Warnings "-register-all".
Open Scope Z_scope.

(** ** Python values *)

(** The values the script handles: what [csv.DictReader] puts in a row
    ([str], or [None] for a column missing from a short line) and what
    [json.loads] and [Response.json] build.  JSON numbers are kept to the
    integers: the script never inspects a number except the status code. *)
Inductive pyval : Type :=
| PNone
| PBool (b : bool)
| PInt (z : Z)
| PStr (s : string)
| PList (l : list pyval)
| PDict (d : gmap string pyval).

(** The exceptions that can cross the functions of the script. *)
Inductive exn : Type :=
| KeyError
| IndexError
| TypeError
| JSONDecodeError
| RequestException.

(** One evaluation of a Python expression or call: a value or an exception. *)
Inductive attempt (A : Type) : Type :=
| Returned (a : A)
| Raised (e : exn).
Arguments Returned {A} a.
Arguments Raised {A} e.

(** [v is None] *)
Definition is_None (v : pyval) : bool :=
  match v with PNone => true | _ => false end.

(** [v == s] for a string literal [s] *)
Definition py_eq_str (v : pyval) (s : string) : bool :=
  match v with PStr t => bool_decide (t = s) | _ => false end.

(** [bool(v)], the truth value [if v] tests *)
Definition truthy (v : pyval) : bool :=
  match v with
  | PNone => false
  | PBool b => b
  | PInt z => negb (Z.eqb z 0)
  | PStr s => negb (bool_decide (s = ""))
  | PList l => negb (bool_decide (List.length l = 0%nat))
  | PDict d => negb (bool_decide (size d = 0%nat))
  end.

(** [needle in hay] on two strings: substring search *)
Fixpoint is_infix (needle hay : string) : bool :=
  String.prefix needle hay ||
  match hay with
  | EmptyString => false
  | String _ rest => is_infix needle rest
  end.

(** [s in v] for a string [s]: an element of a list, a key of a dict, a
    substring of a string; any other [v] is not iterable. *)
Definition py_contains (s : string) (v : pyval) : attempt bool :=
  match v with
  | PList l => Returned (existsb (fun x => py_eq_str x s) l)
  | PDict d => Returned (bool_decide (is_Some (d !! s)))
  | PStr t => Returned (is_infix s t)
  | _ => Raised TypeError
  end.

(** A [str] is held as the bytes of its UTF-8 encoding.  Python counts and
    indexes code points: a code point starts at every byte that is not a
    continuation byte (one of the form [10xxxxxx]). *)
Definition is_continuation (c : ascii) : bool :=
  match c with
  | Ascii _ _ _ _ _ _ false true => true
  | _ => false
  end.

Fixpoint code_points (s : string) : nat :=
  match s with
  | EmptyString => 0%nat
  | String c rest =>
      ((if is_continuation c then 0 else 1) + code_points rest)%nat
  end.

(** The continuation bytes a string starts with. *)
Fixpoint continuation_bytes (s : string) : string :=
  match s with
  | EmptyString => EmptyString
  | String c rest =>
      if is_continuation c then String c (continuation_bytes rest)
      else EmptyString
  end.

(** [len(v)] *)
Definition py_len (v : pyval) : attempt nat :=
  match v with
  | PList l => Returned (List.length l)
  | PDict d => Returned (size d)
  | PStr t => Returned (code_points t)
  | _ => Raised TypeError
  end.

(** [v[0]]: the keys of a decoded JSON object are strings, so the integer
    key [0] is never found in one; the first item of a [str] is its first
    code point, as a [str]. *)
Definition py_index0 (v : pyval) : attempt pyval :=
  match v with
  | PList (x :: _) => Returned x
  | PList [] => Raised IndexError
  | PDict _ => Raised KeyError
  | PStr (String c rest) => Returned (PStr (String c (continuation_bytes rest)))
  | PStr EmptyString => Raised IndexError
  | _ => Raised TypeError
  end.

(** [v[k]] for a string key [k] *)
Definition py_getitem (v : pyval) (k : string) : attempt pyval :=
  match v with
  | PDict d => match d !! k with Some x => Returned x | None => Raised KeyError end
  | _ => Raised TypeError
  end.

(** ** Events and the outside world *)

(** What a run does that can be observed.  [EvGet] and [EvPost] are the two
    HTTP requests, each with what came back ([Response.json()] included);
    [EvPrint] is a call of [print] with its arguments; [EvUpdate] marks an
    invocation of [update_building] by the row loop, before the decorator
    starts its attempts. *)
Inductive event : Type :=
| EvGet (base_url ref_key : string) (ref_id : pyval) (r : attempt pyval)
| EvPost (base_url : string) (building_id : pyval) (api_key : string)
         (data : gmap string pyval) (r : attempt (Z * pyval))
| EvPrint (args : list pyval)
| EvUpdate (building_id : pyval) (data : gmap string pyval).

(** The collaborators of the script, outside the repository: the
    [requests] library against the remote API, and [json.loads].
    - [requests_get base_url key id w] is
      [requests.get(base_url + "/api/buildings/reference", params={key, id}).json()];
    - [requests_post base_url building_id api_key data w] is the pair
      [(r.status_code, r.json())] of
      [r = requests.post(base_url + "/api/buildings/<building_id>.json",
      params={api_key}, json=data)];
    - [json_loads s] is [json.loads(s)] on a string, [None] when it raises
      [JSONDecodeError]. *)
Class Collaborators : Type := {
  World : Type;
  requests_get : string -> string -> pyval -> World -> attempt pyval * World;
  requests_post : string -> pyval -> string -> gmap string pyval -> World ->
                  attempt (Z * pyval) * World;
  json_loads : string -> option pyval
}.

(** How a computation ends: with a value, with an exception, or still inside
    a retry loop when the attempts the model allows are used up. *)
Inductive result (A : Type) : Type :=
| Done (a : A)
| Raise (e : exn)
| Diverge.
Arguments Done {A} a.
Arguments Raise {A} e.
Arguments Diverge {A}.

Section Program.
Context `{Collaborators}.

Record out (A : Type) : Type := Out {
  res : result A;
  world : World;
  log : list event
}.
Arguments Out {A} res world log.
Arguments res {A} o.
Arguments world {A} o.
Arguments log {A} o.

Definition M (A : Type) : Type := World -> out A.

Definition ret {A} (a : A) : M A := fun w => Out (Done a) w [].

Definition raise {A} (e : exn) : M A := fun w => Out (Raise e) w [].

(** [prepend l o]: the outcome [o], reached after the events [l]. *)
Definition prepend {A} (l : list event) (o : out A) : out A :=
  Out (res o) (world o) (l ++ log o).

Definition bind {A B} (m : M A) (k : A -> M B) : M B := fun w =>
  let o := m w in
  match res o with
  | Done a => prepend (log o) (k a (world o))
  | Raise e => Out (Raise e) (world o) (log o)
  | Diverge => Out Diverge (world o) (log o)
  end.

Definition emit (e : event) : M unit := fun w => Out (Done tt) w [e].

Definition print (args : list pyval) : M unit := emit (EvPrint args).

Definition lift {A} (a : attempt A) : M A :=
  match a with Returned x => ret x | Raised e => raise e end.

End Program.

Arguments Out {_ A} res world log.
Arguments res {_ A} o.
Arguments world {_ A} o.
Arguments log {_ A} o.

Declare Scope py_scope.
Delimit Scope py_scope with py.
Notation "x <- m ;; k" := (bind m (fun x => k))
  (at level 100, m at next level, right associativity) : py_scope.
Notation "m ;;; k" := (bind m (fun _ => k))
  (at level 100, right associativity) : py_scope.
Open Scope py_scope.

(** ** The script *)

Section Script.
Context `{Collaborators}.

(** Modelled from the spec: the [@retry] decorator of the [retrying]
    package, which is not part of the repository.  With the arguments the
    script gives it (two waiting times, no stop condition) it calls the
    function again after every exception, whatever the exception, with no
    limit on the number of attempts, and hands back the first value
    returned.  [fuel] bounds the attempts the model follows: [Diverge] says
    the loop is still retrying after [fuel] of them.  The time slept between
    two attempts is not modelled. *)
Fixpoint retry {A} (fuel : nat) (body : M A) : M A := fun w =>
  match fuel with
  | O => Out Diverge w []
  | S fuel' =>
      let o := body w in
      match res o with
      | Done a => o
      | Raise _ => prepend (log o) (retry fuel' body (world o))
      | Diverge => o
      end
  end.

(** The test of line 119 and the two branches it selects, on the decoded
    response [buildings]: Python's [and] stops at the first false operand. *)
Definition select_building_id (buildings : pyval) : attempt pyval :=
  if truthy buildings then
    match py_contains "error" buildings with
    | Raised e => Raised e
    | Returned true => Returned PNone
    | Returned false =>
        match py_len buildings with
        | Raised e => Raised e
        | Returned n =>
            if bool_decide (n = 1%nat) then
              match py_index0 buildings with
              | Raised e => Raised e
              | Returned c => py_getitem c "building_id"
              end
            else Returned PNone
        end
    end
  else Returned PNone.

(** The body of [find_by_reference]: one request, then the selection. *)
Definition find_by_reference_body (base_url ref_key : string) (ref_id : pyval)
  : M pyval := fun w =>
  let '(r, w') := requests_get base_url ref_key ref_id w in
  prepend [EvGet base_url ref_key ref_id r]
    (match r with
     | Raised e => raise e w'
     | Returned buildings => lift (select_building_id buildings) w'
     end).

(** [find_by_reference], decorated. *)
Definition find_by_reference (fuel : nat) (base_url ref_key : string)
  (ref_id : pyval) : M pyval :=
  retry fuel (find_by_reference_body base_url ref_key ref_id).

(** The body of [update_building]: one request; its result is the pair
    [(r.status_code, r.json())]. *)
Definition update_building_body (building_id : pyval)
  (data : gmap string pyval) (api_key base_url : string) : M (Z * pyval) :=
  fun w =>
  let '(r, w') := requests_post base_url building_id api_key data w in
  prepend [EvPost base_url building_id api_key data r] (lift r w').

(** [update_building], decorated. *)
Definition update_building (fuel : nat) (building_id : pyval)
  (data : gmap string pyval) (api_key base_url : string) : M (Z * pyval) :=
  emit (EvUpdate building_id data) ;;;
  retry fuel (update_building_body building_id data api_key base_url).

(** [find_building], cut at its three [if] statements: each part is the
    rest of the function from that statement on. *)
Definition find_building_no_match (data : gmap string pyval) : M pyval :=
  print [PStr "no_match"; PDict data] ;;;
  ret PNone.

Definition find_building_uprn (fuel : nat) (data : gmap string pyval)
  (base_url : string) : M pyval :=
  match data !! "uprn" with
  | Some uprn =>
      building_id <- find_by_reference fuel base_url "uprn" uprn ;;
      if negb (is_None building_id) then
        print [PStr "match_by_uprn"; uprn; building_id] ;;;
        ret building_id
      else find_building_no_match data
  | None => find_building_no_match data
  end.

Definition find_building_toid (fuel : nat) (data : gmap string pyval)
  (base_url : string) : M pyval :=
  match data !! "toid" with
  | Some toid =>
      building_id <- find_by_reference fuel base_url "toid" toid ;;
      if negb (is_None building_id) then
        print [PStr "match_by_toid"; toid; building_id] ;;;
        ret building_id
      else find_building_uprn fuel data base_url
  | None => find_building_uprn fuel data base_url
  end.

Definition find_building (fuel : nat) (data : gmap string pyval)
  (base_url : string) : M pyval :=
  match data !! "building_id" with
  | Some building_id =>
      if negb (is_None building_id) then
        print [PStr "match_by_building_id"; building_id] ;;;
        ret building_id
      else find_building_toid fuel data base_url
  | None => find_building_toid fuel data base_url
  end.

(** [json.loads(v)]: a [str] is decoded, any other value is a [TypeError]. *)
Definition py_json_loads (v : pyval) : attempt pyval :=
  match v with
  | PStr s =>
      match json_loads s with
      | Some j => Returned j
      | None => Raised JSONDecodeError
      end
  | _ => Raised TypeError
  end.

(** [parse_json_columns]: the loop assigns into the row it was given; a
    column the row lacks is a [KeyError]. *)
Fixpoint parse_json_columns (row : gmap string pyval)
  (json_columns : list string) : attempt (gmap string pyval) :=
  match json_columns with
  | [] => Returned row
  | col :: cols =>
      match row !! col with
      | None => Raised KeyError
      | Some v =>
          match py_json_loads v with
          | Raised e => Raised e
          | Returned j => parse_json_columns (<[col := j]> row) cols
          end
      end
  end.

(** Lines 64-65: an empty [sust_dec] is deleted from the row. *)
Definition drop_empty_sust_dec (line : gmap string pyval)
  : gmap string pyval :=
  match line !! "sust_dec" with
  | Some v => if py_eq_str v "" then delete "sust_dec" line else line
  | None => line
  end.

(** Lines 67-71: the update and the line that reports it. *)
Definition update_and_report (fuel : nat) (building_id : pyval)
  (line : gmap string pyval) (api_key base_url : string) : M unit :=
  r <- update_building fuel building_id line api_key base_url ;;
  let '(response_code, response_data) := r in
  if negb (Z.eqb response_code 200) then
    print [PStr "ERROR"; building_id; PInt response_code; response_data]
  else
    print [PStr "DEBUG"; building_id; PInt response_code; response_data].

(** One turn of the loop of [main], lines 58-71; [continue] and the end of
    the body both hand over to the next row. *)
Definition process_row (fuel : nat) (base_url api_key : string)
  (json_columns : list string) (line : gmap string pyval) : M unit :=
  building_id <- find_building fuel line base_url ;;
  line <- lift (parse_json_columns line json_columns) ;;
  if is_None building_id then ret tt
  else
    update_and_report fuel building_id (drop_empty_sust_dec line)
      api_key base_url.

(** The loop of [main], lines 57-71, on the rows [csv.DictReader] yields.
    Opening the file and reading it (lines 55-56 and the iteration of the
    reader) are outside: what they raise is not part of the model. *)
Fixpoint main (fuel : nat) (base_url api_key : string)
  (rows : list (gmap string pyval)) (json_columns : list string) : M unit :=
  match rows with
  | [] => ret tt
  | line :: rest =>
      process_row fuel base_url api_key json_columns line ;;;
      main fuel base_url api_key rest json_columns
  end.

End Script.

(** ** Reading a log *)

(** The lines printed, in order: each is the list of arguments of [print]. *)
Definition prints (l : list event) : list (list pyval) :=
  omap (fun e => match e with EvPrint args => Some args | _ => None end) l.

(** The invocations of [update_building], in order: identifier and payload. *)
Definition updates (l : list event) : list (pyval * gmap string pyval) :=
  omap (fun e => match e with EvUpdate b d => Some (b, d) | _ => None end) l.

(** The reference requests sent, in order: key and value. *)
Definition lookups (l : list event) : list (string * pyval) :=
  omap (fun e => match e with EvGet _ k i _ => Some (k, i) | _ => None end) l.

(** The six forms of a line of output, by the arguments of the [print]
    that writes it. *)
Definition output_form (args : list pyval) : bool :=
  match args with
  | [PStr tag; v] =>
      bool_decide (tag = "match_by_building_id") ||
      (bool_decide (tag = "no_match") &&
       match v with PDict _ => true | _ => false end)
  | [PStr tag; _; _] =>
      bool_decide (tag = "match_by_toid") || bool_decide (tag = "match_by_uprn")
  | [PStr tag; _; PInt _; _] =>
      bool_decide (tag = "ERROR") || bool_decide (tag = "DEBUG")
  | _ => false
  end.

(** The line that reports the resolution of the row [data] to [b]: the
    strategy that found [b] with the value it matched, or [no_match] with
    the row when [b] is [None]. *)
Definition resolution_line (data : gmap string pyval) (b : pyval)
  (args : list pyval) : Prop :=
  if is_None b then args = [PStr "no_match"; PDict data]
  else
    (data !! "building_id" = Some b /\
     args = [PStr "match_by_building_id"; b]) \/
    (exists t, data !! "toid" = Some t /\
       args = [PStr "match_by_toid"; t; b]) \/
    (exists u, data !! "uprn" = Some u /\
       args = [PStr "match_by_uprn"; u; b]).

(** A line names the lookup [(key, value)] when it carries the strategy
    name [match_by_<key>] and the value looked up. *)
Definition reports_lookup (key : string) (value : pyval)
  (args : list pyval) : Prop :=
  PStr ("match_by_" +:+ key) ∈ args ∧ value ∈ args.

(** ** The payload as the specification words it

    The row with the identifier columns removed; the definition follows the
    specification, to be compared with the payload the script sends. *)
Definition identifier_columns : list string := ["building_id"; "toid"; "uprn"].

Definition without_identifier_columns (line : gmap string pyval)
  : gmap string pyval :=
  foldr delete line identifier_columns.

(** ** The command line

    Lines 132-144.  [str.split(sep)] with a one-character separator cuts at
    every occurrence of it and keeps the empty pieces, so a string with [n]
    separators yields [n + 1] pieces. *)
Fixpoint py_split (sep : ascii) (s : string) : list string :=
  match s with
  | EmptyString => [EmptyString]
  | String c rest =>
      if Ascii.eqb c sep then EmptyString :: py_split sep rest
      else
        match py_split sep rest with
        | piece :: pieces => String c piece :: pieces
        | [] => [String c EmptyString]
        end
  end.

(** The arguments [main] is called with, from [sys.argv]; [None] when one
    of [sys.argv[1]], [sys.argv[2]], [sys.argv[3]] raises [IndexError] and
    the script prints its usage line and exits. *)
Definition command_line (argv : list string)
  : option (string * string * string * list string) :=
  match argv with
  | _ :: url :: api_key :: filename :: rest =>
      Some (url, api_key, filename,
            match rest with
            | columns :: _ => py_split "," columns
            | [] => []
            end)
  | _ => None
  end.

(** ** More readings of a log *)

(** The update requests sent, in order: base URL, identifier, API key and
    payload. *)
Definition posts (l : list event)
  : list (string * pyval * string * gmap string pyval) :=
  omap (fun e => match e with
                 | EvPost u b k d _ => Some (u, b, k, d)
                 | _ => None
                 end) l.

(** The reference requests sent, in order, with the base URL they go to. *)
Definition gets (l : list event) : list (string * string * pyval) :=
  omap (fun e => match e with
                 | EvGet u k i _ => Some (u, k, i)
                 | _ => None
                 end) l.

Section Attempts.
Context `{Collaborators}.

(** The world after [n] attempts of [body] in a row that all raised, if the
    first [n] attempts from [w] do all raise. *)
Fixpoint after_failures {A} (n : nat) (body : M A) (w : World)
  : option World :=
  match n with
  | O => Some w
  | S n' =>
      match res (body w) with
      | Raise _ => after_failures n' body (world (body w))
      | _ => None
      end
  end.

End Attempts.

Section Reports.
Context `{Collaborators}.

(** The [toid] strategy found nothing for the row and left the world [w1]:
    the row has no [toid] column, or the lookup of its [toid] returned
    [None]. *)
Definition toid_found_nothing (fuel : nat) (data : gmap string pyval)
  (base_url : string) (w w1 : World) : Prop :=
  (data !! "toid" = None /\ w1 = w) \/
  (exists t,
     data !! "toid" = Some t /\
     res (find_by_reference fuel base_url "toid" t w) = Done PNone /\
     world (find_by_reference fuel base_url "toid" t w) = w1).

(** The line [args] reports how the row [data] was resolved to [b] from the
    world [w]: it names the strategy that succeeded, the first in the order
    [building_id], [toid], [uprn], with the value that strategy matched and
    the identifier it found, or it is [no_match] with the row when none
    succeeded. *)
Definition reports_strategy (fuel : nat) (data : gmap string pyval)
  (base_url : string) (w : World) (b : pyval) (args : list pyval) : Prop :=
  (data !! "building_id" = Some b /\ b <> PNone /\
   args = [PStr "match_by_building_id"; b])
  \/
  ((forall b0, data !! "building_id" = Some b0 -> b0 = PNone) /\
   ((exists t,
       data !! "toid" = Some t /\
       res (find_by_reference fuel base_url "toid" t w) = Done b /\
       b <> PNone /\
       args = [PStr "match_by_toid"; t; b])
    \/
    (exists w1,
       toid_found_nothing fuel data base_url w w1 /\
       ((exists u,
           data !! "uprn" = Some u /\
           res (find_by_reference fuel base_url "uprn" u w1) = Done b /\
           b <> PNone /\
           args = [PStr "match_by_uprn"; u; b])
        \/
        (b = PNone /\
         args = [PStr "no_match"; PDict data] /\
         (data !! "uprn" = None \/
          exists u,
            data !! "uprn" = Some u /\
            res (find_by_reference fuel base_url "uprn" u w1)
            = Done PNone)))))).

End Reports.

(** ** A scripted remote, for running the script on examples *)

Module Scenario.

(** The world holds the answers the remote will give, in order: one list
    for the reference requests, one for the update requests.  A request
    that finds its list empty fails as a connection would. *)
Definition script : Type :=
  list (attempt pyval) * list (attempt (Z * pyval)).

Definition get (_ _ : string) (_ : pyval) (w : script)
  : attempt pyval * script :=
  match w.1 with
  | [] => (Raised RequestException, w)
  | r :: rs => (r, (rs, w.2))
  end.

Definition post (_ : string) (_ : pyval) (_ : string)
  (_ : gmap string pyval) (w : script) : attempt (Z * pyval) * script :=
  match w.2 with
  | [] => (Raised RequestException, w)
  | r :: rs => (r, (w.1, rs))
  end.

(** [json.loads] on the strings the examples decode: ["[1,2,3]"] is the
    array of the three numbers, and ["{"] is not JSON. *)
Definition loads (s : string) : option pyval :=
  if bool_decide (s = "[1,2,3]") then Some (PList [PInt 1; PInt 2; PInt 3])
  else None.

Definition remote : Collaborators :=
  {| World := script; requests_get := get; requests_post := post;
     json_loads := loads |}.

Definition candidate (building_id : pyval) : pyval :=
  PDict {[ "building_id" := building_id ]}.

Definition ok_body : pyval := PDict ∅.

(** Scenario B of the specification: a row found by its TOID. *)
Definition row_b : gmap string pyval :=
  {[ "toid" := PStr "X123"; "height" := PStr "10" ]}.

Definition world_b : script :=
  ([Returned (PList [candidate (PStr "7")])], [Returned (200, ok_body)]).

(** A row with a TOID nobody knows and a UPRN that names one building. *)
Definition row_tu : gmap string pyval :=
  {[ "toid" := PStr "X"; "uprn" := PStr "U" ]}.

Definition world_tu : script :=
  ([Returned (PList []); Returned (PList [candidate (PStr "7")])],
   [Returned (200, ok_body)]).

(** Scenario C with a JSON column: no match for the TOID, and a designated
    column that does not hold JSON. *)
Definition row_c : gmap string pyval :=
  {[ "toid" := PStr "X999"; "tags" := PStr "{" ]}.

Definition world_c : script :=
  ([Returned (PList [])], [Returned (200, ok_body)]).

(** A line whose [building_id] cell is empty. *)
Definition row_e : gmap string pyval :=
  {[ "building_id" := PStr ""; "toid" := PStr "X123"; "tags" := PStr "{" ]}.

Definition row_e' : gmap string pyval :=
  {[ "building_id" := PStr ""; "toid" := PStr "X123" ]}.

(** A row with a JSON column that decodes. *)
Definition row_j : gmap string pyval :=
  {[ "building_id" := PStr "42"; "levels" := PStr "[1,2,3]" ]}.

Definition world_u (code : Z) : script := ([], [Returned (code, ok_body)]).

(** A remote that fails once and then knows the building. *)
Definition world_r : script :=
  ([Raised RequestException; Returned (PList [candidate (PStr "7")])],
   [Raised RequestException; Returned (200, ok_body)]).

(** A row with an empty [sust_dec]. *)
Definition row_s : gmap string pyval :=
  {[ "building_id" := PStr "42"; "sust_dec" := PStr "" ]}.

(** A remote whose reference endpoint always answers with one candidate
    that has no [building_id], and whose update endpoint is down. *)
Definition broken : Collaborators :=
  {| World := unit;
     requests_get := fun _ _ _ w => (Returned (PList [PDict ∅]), w);
     requests_post := fun _ _ _ _ w => (Raised RequestException, w);
     json_loads := fun _ => None |}.

End Scenario.

(** ** Basic facts about computations and logs *)

Section Basics.
Context `{Collaborators}.
Implicit Types (w : World) (l : list event) (data line : gmap string pyval).

Lemma prints_app l1 l2 : prints (l1 ++ l2) = prints l1 ++ prints l2.
Proof. apply omap_app. Qed.

Lemma updates_app l1 l2 : updates (l1 ++ l2) = updates l1 ++ updates l2.
Proof. apply omap_app. Qed.

Lemma lookups_app l1 l2 : lookups (l1 ++ l2) = lookups l1 ++ lookups l2.
Proof. apply omap_app. Qed.

Lemma out_eta {A} (o : out A) : o = Out (res o) (world o) (log o).
Proof. by destruct o. Qed.

Lemma prepend_nil {A} (o : out A) : prepend [] o = o.
Proof. by destruct o. Qed.

Lemma prepend_prepend {A} l1 l2 (o : out A) :
  prepend l1 (prepend l2 o) = prepend (l1 ++ l2) o.
Proof. unfold prepend; simpl. by rewrite app_assoc. Qed.

Lemma bind_Done {A B} (m : M A) (k : A -> M B) w a :
  res (m w) = Done a ->
  bind m k w = prepend (log (m w)) (k a (world (m w))).
Proof. unfold bind. by intros ->. Qed.

Lemma bind_Raise {A B} (m : M A) (k : A -> M B) w e :
  res (m w) = Raise e ->
  bind m k w = Out (Raise e) (world (m w)) (log (m w)).
Proof. unfold bind. by intros ->. Qed.

(** The log of a sequence starts with the log of its first part. *)
Lemma bind_log {A B} (m : M A) (k : A -> M B) w :
  exists l, log (bind m k w) = log (m w) ++ l.
Proof.
  unfold bind. destruct (res (m w)); simpl.
  - eauto.
  - exists []. by rewrite app_nil_r.
  - exists []. by rewrite app_nil_r.
Qed.

(** *** The retry loop *)

(** A loop that returns does so on the value of its last attempt. *)
Lemma retry_Done {A} fuel (body : M A) w a :
  res (retry fuel body w) = Done a ->
  exists l w0,
    res (body w0) = Done a /\
    world (retry fuel body w) = world (body w0) /\
    log (retry fuel body w) = l ++ log (body w0).
Proof.
  revert w. induction fuel as [|fuel IH]; intros w; simpl; [done|].
  destruct (res (body w)) eqn:E.
  - intros Hr. exists [], w. rewrite E in Hr. by rewrite E.
  - simpl. intros Hr. destruct (IH _ Hr) as (l & w0 & H1 & H2 & H3).
    exists (log (body w) ++ l), w0. repeat split; try done.
    by rewrite H3, app_assoc.
  - by rewrite E.
Qed.

(** An attempt that returns ends the loop at once. *)
Lemma retry_first {A} fuel (body : M A) w a :
  res (body w) = Done a -> retry (S fuel) body w = body w.
Proof. simpl. by intros ->. Qed.

(** A failed attempt is followed by another one. *)
Lemma retry_again {A} fuel (body : M A) w e :
  res (body w) = Raise e ->
  retry (S fuel) body w = prepend (log (body w)) (retry fuel body (world (body w))).
Proof. simpl. by intros ->. Qed.

(** Once the loop has returned, more fuel changes nothing. *)
Lemma retry_fuel_mono {A} fuel k (body : M A) w a :
  res (retry fuel body w) = Done a ->
  retry (fuel + k) body w = retry fuel body w.
Proof.
  revert w. induction fuel as [|fuel IH]; intros w; simpl; [done|].
  destruct (res (body w)) eqn:E; try done.
  simpl. intros Hr. by rewrite (IH _ Hr).
Qed.

(** What no attempt logs, the loop does not log. *)
Lemma retry_omap_nil {A B} (f : event -> option B) fuel (body : M A) w :
  (forall w', omap f (log (body w')) = []) ->
  omap f (log (retry fuel body w)) = [].
Proof.
  intros Hb. revert w. induction fuel as [|fuel IH]; intros w; simpl; [done|].
  destruct (res (body w)); simpl; try apply Hb.
  by rewrite omap_app, Hb, IH.
Qed.

End Basics.

(** ** The reference lookup *)

Section Lookup.
Context `{Collaborators}.
Implicit Types (w : World) (l : list event) (data line : gmap string pyval).

(** The selection yields an identifier only on a list of one object that has
    a [building_id]. *)
Lemma select_building_id_found buildings v :
  select_building_id buildings = Returned v -> v <> PNone ->
  exists d, buildings = PList [PDict d] /\ d !! "building_id" = Some v.
Proof.
  unfold select_building_id. intros Hs Hv.
  destruct (truthy buildings); [|congruence].
  destruct buildings as [| | |s|l|d]; simpl in Hs; try congruence.
  - destruct (is_infix "error" s); [congruence|].
    case_bool_decide; [|congruence].
    destruct s; simpl in Hs; congruence.
  - destruct (existsb _ l); [congruence|].
    case_bool_decide as Hl; [|congruence].
    destruct l as [|c [|]]; simpl in Hl; try lia.
    simpl in Hs. destruct c; simpl in Hs; try congruence.
    destruct (d !! "building_id") eqn:E; [|congruence].
    eexists. split; [done|]. congruence.
  - case_bool_decide; [congruence|].
    case_bool_decide; congruence.
Qed.

Lemma select_building_id_empty : select_building_id (PList []) = Returned PNone.
Proof. reflexivity. Qed.

Lemma select_building_id_many (a b : pyval) (cs : list pyval) :
  select_building_id (PList (a :: b :: cs)) = Returned PNone.
Proof.
  unfold select_building_id, truthy, py_contains, py_len.
  rewrite bool_decide_eq_false_2 by (simpl; lia). simpl negb. cbv iota.
  destruct (existsb _ _); [done|].
  by rewrite bool_decide_eq_false_2 by (simpl; lia).
Qed.

Lemma select_building_id_error_key d :
  is_Some (d !! "error") -> select_building_id (PDict d) = Returned PNone.
Proof.
  intros He. unfold select_building_id; simpl.
  destruct (negb _); [|done]. by rewrite bool_decide_eq_true_2.
Qed.

Lemma select_building_id_error_element (cs : list pyval) :
  PStr "error" ∈ cs -> select_building_id (PList cs) = Returned PNone.
Proof.
  intros He. unfold select_building_id; simpl.
  destruct (negb _); [|done].
  assert (existsb (fun x => py_eq_str x "error") cs = true) as ->; [|done].
  apply existsb_exists. exists (PStr "error"). split.
  - by apply list_elem_of_In.
  - done.
Qed.

Lemma select_building_id_single d v :
  d !! "building_id" = Some v -> select_building_id (PList [PDict d]) = Returned v.
Proof. intros Hd. unfold select_building_id; simpl. by rewrite Hd. Qed.

(** One attempt logs its request and nothing else. *)
Lemma find_by_reference_body_log base_url ref_key ref_id w :
  log (find_by_reference_body base_url ref_key ref_id w)
  = [EvGet base_url ref_key ref_id (requests_get base_url ref_key ref_id w).1].
Proof.
  unfold find_by_reference_body.
  destruct (requests_get _ _ _ w) as [[b|e] w']; simpl; [|done].
  by destruct (select_building_id b).
Qed.

(** One attempt on a decoded response. *)
Lemma find_by_reference_body_response base_url ref_key ref_id w buildings w' :
  requests_get base_url ref_key ref_id w = (Returned buildings, w') ->
  find_by_reference_body base_url ref_key ref_id w
  = Out (match select_building_id buildings with
         | Returned v => Done v
         | Raised e => Raise e
         end) w' [EvGet base_url ref_key ref_id (Returned buildings)].
Proof.
  unfold find_by_reference_body. intros ->.
  by destruct (select_building_id buildings).
Qed.

Lemma find_by_reference_prints fuel base_url ref_key ref_id w :
  prints (log (find_by_reference fuel base_url ref_key ref_id w)) = [].
Proof.
  apply retry_omap_nil. intros w'. by rewrite find_by_reference_body_log.
Qed.

Lemma find_by_reference_updates fuel base_url ref_key ref_id w :
  updates (log (find_by_reference fuel base_url ref_key ref_id w)) = [].
Proof.
  apply retry_omap_nil. intros w'. by rewrite find_by_reference_body_log.
Qed.

(** A lookup that returns does so on the response to its last request. *)
Lemma find_by_reference_Done fuel base_url ref_key ref_id w v :
  res (find_by_reference fuel base_url ref_key ref_id w) = Done v ->
  exists l buildings,
    select_building_id buildings = Returned v /\
    log (find_by_reference fuel base_url ref_key ref_id w)
    = l ++ [EvGet base_url ref_key ref_id (Returned buildings)].
Proof.
  unfold find_by_reference.
  intros Hr. apply retry_Done in Hr as (l & w0 & Hb & _ & Hl).
  exists l. rewrite Hl, find_by_reference_body_log.
  unfold find_by_reference_body in Hb.
  destruct (requests_get _ _ _ w0) as [[b|e] w']; simpl in *; [|done].
  exists b. split; [|done].
  destruct (select_building_id b); simpl in Hb; congruence.
Qed.

End Lookup.

(** ** The resolver *)

Section Resolver.
Context `{Collaborators}.
Implicit Types (w : World) (l : list event) (data line : gmap string pyval).

(** C3: a reference lookup returns an identifier only on a response that is
    a list of exactly one candidate with no error indicator, and then the
    identifier is that candidate's [building_id]; a response with no
    candidate, with two or more, or with an error indicator (the key
    [error] of an object, the element [error] of a list) makes it return
    [None].  The response is the one to the last request of the lookup. *)
Theorem find_by_reference_sole_candidate fuel base_url ref_key ref_id w :
  (forall v,
     res (find_by_reference fuel base_url ref_key ref_id w) = Done v ->
     v <> PNone ->
     exists d l,
       d !! "building_id" = Some v /\
       py_contains "error" (PList [PDict d]) = Returned false /\
       log (find_by_reference fuel base_url ref_key ref_id w)
       = l ++ [EvGet base_url ref_key ref_id (Returned (PList [PDict d]))])
  /\
  (forall buildings w',
     requests_get base_url ref_key ref_id w = (Returned buildings, w') ->
     buildings = PList [] \/
     (exists a b cs, buildings = PList (a :: b :: cs)) \/
     (exists d, buildings = PDict d /\ is_Some (d !! "error")) \/
     (exists cs, buildings = PList cs /\ PStr "error" ∈ cs) ->
     find_by_reference (S fuel) base_url ref_key ref_id w
     = Out (Done PNone) w' [EvGet base_url ref_key ref_id (Returned buildings)])
  /\
  (forall d v w',
     requests_get base_url ref_key ref_id w = (Returned (PList [PDict d]), w') ->
     d !! "building_id" = Some v ->
     find_by_reference (S fuel) base_url ref_key ref_id w
     = Out (Done v) w'
         [EvGet base_url ref_key ref_id (Returned (PList [PDict d]))]).
Proof.
  split; [|split].
  - intros v Hr Hv.
    destruct (find_by_reference_Done _ _ _ _ _ _ Hr) as (l & b & Hs & Hl).
    destruct (select_building_id_found _ _ Hs Hv) as (d & -> & Hd).
    by exists d, l.
  - intros buildings w' Hg Hcase.
    assert (select_building_id buildings = Returned PNone) as Hs.
    { destruct Hcase as [->|[(a & b & cs & ->)|[(d & -> & He)|(cs & -> & He)]]].
      - apply select_building_id_empty.
      - apply select_building_id_many.
      - by apply select_building_id_error_key.
      - by apply select_building_id_error_element. }
    unfold find_by_reference.
    rewrite (retry_first _ _ _ PNone);
      rewrite (find_by_reference_body_response _ _ _ _ _ _ Hg), Hs; done.
  - intros d v w' Hg Hd.
    unfold find_by_reference.
    rewrite (retry_first _ _ _ v);
      rewrite (find_by_reference_body_response _ _ _ _ _ _ Hg),
        (select_building_id_single _ _ Hd); done.
Qed.

(** The resolver logs no update. *)
Lemma find_building_updates fuel data base_url w :
  updates (log (find_building fuel data base_url w)) = [].
Proof.
  assert (forall w, updates (log (find_building_no_match data w)) = [])
    as Hn by done.
  assert (forall w, updates (log (find_building_uprn fuel data base_url w)) = [])
    as Hu.
  { intros w0. unfold find_building_uprn.
    destruct (data !! "uprn") as [u|]; [|done].
    unfold bind at 1.
    pose proof (find_by_reference_updates fuel base_url "uprn" u w0) as Hf.
    destruct (find_by_reference fuel base_url "uprn" u w0) as [[v| |] w1 l1];
      simpl in *; try done.
    rewrite updates_app, Hf. by destruct (is_None v). }
  assert (forall w, updates (log (find_building_toid fuel data base_url w)) = [])
    as Ht.
  { intros w0. unfold find_building_toid.
    destruct (data !! "toid") as [t|]; [|done].
    unfold bind at 1.
    pose proof (find_by_reference_updates fuel base_url "toid" t w0) as Hf.
    destruct (find_by_reference fuel base_url "toid" t w0) as [[v| |] w1 l1];
      simpl in *; try done.
    rewrite updates_app, Hf. destruct (is_None v); simpl; [apply Hu|done]. }
  unfold find_building.
  destruct (data !! "building_id") as [b|]; [|done].
  destruct (is_None b); simpl; [apply Ht|done].
Qed.

(** C2: the resolver tries its strategies in a fixed order and the first
    success wins.  A [building_id] column with a value other than [None] is
    returned as it is, with no lookup.  Otherwise a [toid] column is looked
    up under the key [toid], and what the lookup finds is returned.
    Otherwise, or when that lookup found nothing, a [uprn] column is looked
    up under the key [uprn], and what the lookup finds is returned.
    Otherwise the resolver returns [None]. *)
Theorem find_building_strategy_order fuel data base_url w :
  (forall b,
     data !! "building_id" = Some b -> b <> PNone ->
     find_building fuel data base_url w
     = Out (Done b) w [EvPrint [PStr "match_by_building_id"; b]])
  /\
  ((forall b, data !! "building_id" = Some b -> b = PNone) ->
   (forall t v,
      data !! "toid" = Some t ->
      res (find_by_reference fuel base_url "toid" t w) = Done v ->
      v <> PNone ->
      find_building fuel data base_url w
      = Out (Done v) (world (find_by_reference fuel base_url "toid" t w))
          (log (find_by_reference fuel base_url "toid" t w)
           ++ [EvPrint [PStr "match_by_toid"; t; v]]))
   /\
   (forall w1 l1,
      (data !! "toid" = None /\ w1 = w /\ l1 = []) \/
      (exists t, data !! "toid" = Some t /\
         find_by_reference fuel base_url "toid" t w = Out (Done PNone) w1 l1) ->
      (forall u v,
         data !! "uprn" = Some u ->
         res (find_by_reference fuel base_url "uprn" u w1) = Done v ->
         find_building fuel data base_url w
         = Out (Done v) (world (find_by_reference fuel base_url "uprn" u w1))
             (l1 ++ log (find_by_reference fuel base_url "uprn" u w1)
              ++ [if is_None v then EvPrint [PStr "no_match"; PDict data]
                  else EvPrint [PStr "match_by_uprn"; u; v]]))
      /\
      (data !! "uprn" = None ->
       find_building fuel data base_url w
       = Out (Done PNone) w1 (l1 ++ [EvPrint [PStr "no_match"; PDict data]])))).
Proof.
  split.
  - intros b Hb Hn. unfold find_building. rewrite Hb.
    by destruct b.
  - intros Hb.
    assert (find_building fuel data base_url w
            = find_building_toid fuel data base_url w) as ->.
    { unfold find_building. destruct (data !! "building_id") as [b|]; [|done].
      by rewrite (Hb b eq_refl). }
    assert (forall w0,
      (forall u v,
         data !! "uprn" = Some u ->
         res (find_by_reference fuel base_url "uprn" u w0) = Done v ->
         find_building_uprn fuel data base_url w0
         = Out (Done v) (world (find_by_reference fuel base_url "uprn" u w0))
             (log (find_by_reference fuel base_url "uprn" u w0)
              ++ [if is_None v then EvPrint [PStr "no_match"; PDict data]
                  else EvPrint [PStr "match_by_uprn"; u; v]]))
      /\
      (data !! "uprn" = None ->
       find_building_uprn fuel data base_url w0
       = Out (Done PNone) w0 [EvPrint [PStr "no_match"; PDict data]])) as Hu.
    { intros w0. unfold find_building_uprn. split.
      - intros u v -> Hr. rewrite (bind_Done _ _ _ _ Hr).
        by destruct v.
      - by intros ->. }
    split.
    + intros t v Ht Hr Hv. unfold find_building_toid. rewrite Ht.
      rewrite (bind_Done _ _ _ _ Hr). by destruct v.
    + intros w1 l1 [(Ht & -> & ->)|(t & Ht & Hr)].
      * unfold find_building_toid. rewrite Ht. apply Hu.
      * assert (find_building_toid fuel data base_url w
                = prepend l1 (find_building_uprn fuel data base_url w1)) as ->.
        { unfold find_building_toid. rewrite Ht.
          rewrite (bind_Done _ _ _ PNone) by (by rewrite Hr).
          by rewrite Hr. }
        destruct (Hu w1) as [Hu1 Hu2]. split.
        -- intros u v Hd Hv. by rewrite (Hu1 u v Hd Hv).
        -- intros Hd. by rewrite (Hu2 Hd).
Qed.

End Resolver.

(** ** JSON columns *)

Section JsonColumns.
Context `{Collaborators}.
Implicit Types (line : gmap string pyval) (cols : list string).

Lemma py_json_loads_Returned v j :
  py_json_loads v = Returned j ->
  exists s, v = PStr s /\ json_loads s = Some j.
Proof.
  destruct v as [| | |s| |]; simpl; try done.
  destruct (json_loads s) eqn:E; [|done].
  intros [= ->]. eauto.
Qed.

(** The columns that are not designated keep their values. *)
Lemma parse_json_columns_other cols line line' k :
  parse_json_columns line cols = Returned line' ->
  k ∉ cols -> line' !! k = line !! k.
Proof.
  revert line. induction cols as [|c cs IH]; intros line; simpl.
  - by intros [= ->].
  - intros Hp Hk. apply not_elem_of_cons in Hk as [Hkc Hk].
    destruct (line !! c) as [x|]; [|done].
    destruct (py_json_loads x) as [j|]; [|done].
    rewrite (IH _ Hp Hk). by apply lookup_insert_ne.
Qed.


(** A designated column whose string is not JSON makes the decoding raise. *)
Lemma parse_json_columns_invalid cols line col s :
  col ∈ cols -> line !! col = Some (PStr s) -> json_loads s = None ->
  exists e, parse_json_columns line cols = Raised e.
Proof.
  revert line. induction cols as [|c cs IH]; intros line Hin Hl Hs; simpl.
  - by apply elem_of_nil in Hin.
  - destruct (decide (c = col)) as [->|Hne].
    + rewrite Hl. simpl. rewrite Hs. eauto.
    + apply elem_of_cons in Hin as [->|Hin]; [done|].
      destruct (line !! c) as [x|]; [|eauto].
      destruct (py_json_loads x) as [j|]; [|eauto].
      apply IH; try done. by rewrite lookup_insert_ne.
Qed.


End JsonColumns.

(** ** The row loop *)

Section RowLoop.
Context `{Collaborators}.
Implicit Types (w : World) (l : list event) (data line : gmap string pyval).

Lemma update_building_body_log b d api_key base_url w :
  log (update_building_body b d api_key base_url w)
  = [EvPost base_url b api_key d (requests_post base_url b api_key d w).1].
Proof.
  unfold update_building_body.
  by destruct (requests_post _ _ _ _ w) as [[r|e] w'].
Qed.

(** An invocation of [update_building] is logged once, however many
    requests the decorator sends. *)
Lemma update_building_updates fuel b d api_key base_url w :
  updates (log (update_building fuel b d api_key base_url w)) = [(b, d)].
Proof.
  unfold update_building, bind, emit; simpl. f_equal.
  apply (retry_omap_nil _ fuel). intros w'.
  by rewrite update_building_body_log.
Qed.

Lemma update_building_prints fuel b d api_key base_url w :
  prints (log (update_building fuel b d api_key base_url w)) = [].
Proof.
  unfold update_building, bind, emit; simpl.
  apply (retry_omap_nil _ fuel). intros w'.
  by rewrite update_building_body_log.
Qed.

(** With fuel for one attempt at least, the request is sent. *)
Lemma update_building_posts fuel b d api_key base_url w :
  (0 < fuel)%nat ->
  exists r, EvPost base_url b api_key d r
            ∈ log (update_building fuel b d api_key base_url w).
Proof.
  destruct fuel as [|fuel]; [lia|]. intros _.
  exists (requests_post base_url b api_key d w).1.
  unfold update_building, bind, emit; simpl.
  apply elem_of_cons. right.
  pose proof (update_building_body_log b d api_key base_url w) as Hl.
  destruct (res (update_building_body b d api_key base_url w));
    simpl; rewrite Hl; set_solver.
Qed.

Lemma update_and_report_unfold fuel b d api_key base_url w :
  update_and_report fuel b d api_key base_url w
  = let u := update_building fuel b d api_key base_url w in
    match res u with
    | Done (code, body) =>
        Out (Done tt) (world u)
          (log u ++ [EvPrint [PStr (if bool_decide (code = 200) then "DEBUG"
                                    else "ERROR"); b; PInt code; body]])
    | Raise e => Out (Raise e) (world u) (log u)
    | Diverge => Out Diverge (world u) (log u)
    end.
Proof.
  unfold update_and_report, bind at 1. cbv zeta.
  destruct (update_building fuel b d api_key base_url w)
    as [[[code body]| |] w1 l1]; simpl; try done.
  case_bool_decide as Hc.
  - subst code. done.
  - apply Z.eqb_neq in Hc. by rewrite Hc.
Qed.

Lemma update_and_report_updates fuel b d api_key base_url w :
  updates (log (update_and_report fuel b d api_key base_url w)) = [(b, d)].
Proof.
  rewrite update_and_report_unfold. cbv zeta.
  pose proof (update_building_updates fuel b d api_key base_url w) as Hu.
  destruct (update_building fuel b d api_key base_url w)
    as [[[code body]| |] w1 l1]; simpl in *; try done.
  by rewrite updates_app, Hu.
Qed.

Lemma update_and_report_prints fuel b d api_key base_url w :
  Forall (fun args => output_form args = true)
    (prints (log (update_and_report fuel b d api_key base_url w))).
Proof.
  rewrite update_and_report_unfold. cbv zeta.
  pose proof (update_building_prints fuel b d api_key base_url w) as Hp.
  destruct (update_building fuel b d api_key base_url w)
    as [[[code body]| |] w1 l1]; simpl in *; rewrite ?prints_app, Hp;
    try done.
  simpl. constructor; [|done]. by case_bool_decide.
Qed.

(** One turn of the loop, by what the resolver and the decoding yield. *)
Lemma process_row_unfold fuel base_url api_key json_columns line w :
  process_row fuel base_url api_key json_columns line w
  = let f := find_building fuel line base_url w in
    match res f with
    | Done b =>
        match parse_json_columns line json_columns with
        | Returned line' =>
            if is_None b then Out (Done tt) (world f) (log f)
            else prepend (log f)
                   (update_and_report fuel b (drop_empty_sust_dec line')
                      api_key base_url (world f))
        | Raised e => Out (Raise e) (world f) (log f)
        end
    | Raise e => Out (Raise e) (world f) (log f)
    | Diverge => Out Diverge (world f) (log f)
    end.
Proof.
  unfold process_row, bind at 1. cbv zeta.
  destruct (find_building fuel line base_url w) as [[b| |] w1 l1];
    simpl; try done.
  unfold bind.
  destruct (parse_json_columns line json_columns) as [line'|e]; simpl.
  - destruct (is_None b); simpl.
    + unfold prepend; simpl. by rewrite app_nil_r.
    + by rewrite prepend_nil.
  - unfold prepend; simpl. by rewrite app_nil_r.
Qed.

Lemma main_cons fuel base_url api_key json_columns line rest w :
  main fuel base_url api_key (line :: rest) json_columns w
  = let p := process_row fuel base_url api_key json_columns line w in
    match res p with
    | Done _ =>
        prepend (log p) (main fuel base_url api_key rest json_columns (world p))
    | Raise e => Out (Raise e) (world p) (log p)
    | Diverge => Out Diverge (world p) (log p)
    end.
Proof. reflexivity. Qed.

(** The updates of one turn of the loop: none, or one with the identifier
    the resolver returned and the decoded row, less an empty [sust_dec]. *)
Lemma process_row_updates fuel base_url api_key json_columns line w :
  updates (log (process_row fuel base_url api_key json_columns line w))
  = match res (find_building fuel line base_url w),
          parse_json_columns line json_columns with
    | Done b, Returned line' =>
        if is_None b then [] else [(b, drop_empty_sust_dec line')]
    | _, _ => []
    end.
Proof.
  rewrite process_row_unfold. cbv zeta.
  pose proof (find_building_updates fuel line base_url w) as Hf.
  destruct (find_building fuel line base_url w) as [[b| |] w1 l1];
    simpl in *; try done.
  destruct (parse_json_columns line json_columns) as [line'|e]; try done.
  destruct (is_None b); [done|]. simpl.
  by rewrite updates_app, Hf, update_and_report_updates.
Qed.

End RowLoop.

(** ** Properties of the row loop *)

Section RowProperties.
Context `{Collaborators}.
Implicit Types (w : World) (l : list event) (data line : gmap string pyval).

Lemma drop_empty_sust_dec_other line k :
  k <> "sust_dec" -> drop_empty_sust_dec line !! k = line !! k.
Proof.
  intros Hk. unfold drop_empty_sust_dec.
  destruct (line !! "sust_dec") as [v|]; [|done].
  destruct (py_eq_str v ""); [|done].
  by rewrite lookup_delete_ne.
Qed.

(** C1, as the script has it: the payload handed to [update_building] is the
    whole row, after the designated columns are decoded and an empty
    [sust_dec] is dropped.  The identifier columns are not removed: a
    column [building_id], [toid] or [uprn] that is not a designated JSON
    column is in the payload with the value it has in the row. *)
Theorem update_payload_is_the_row fuel base_url api_key json_columns line w b d :
  (b, d) ∈ updates (log (process_row fuel base_url api_key json_columns line w)) ->
  exists line',
    parse_json_columns line json_columns = Returned line' /\
    d = drop_empty_sust_dec line' /\
    (forall k, k ∈ identifier_columns -> k ∉ json_columns ->
       d !! k = line !! k).
Proof.
  rewrite process_row_updates.
  destruct (res (find_building fuel line base_url w)) as [b'| |];
    try (by intros ?%elem_of_nil).
  destruct (parse_json_columns line json_columns) as [line'|e] eqn:Ep;
    try (by intros ?%elem_of_nil).
  destruct (is_None b'); [by intros ?%elem_of_nil|].
  intros [= -> ->]%list_elem_of_singleton.
  exists line'. repeat split; try done.
  intros k Hk Hj.
  rewrite drop_empty_sust_dec_other.
  - by apply (parse_json_columns_other json_columns).
  - intros ->. unfold identifier_columns in Hk.
    repeat (apply elem_of_cons in Hk as [Hk|Hk]; [discriminate|]).
    by apply elem_of_nil in Hk.
Qed.

(** C4, as the script has it: a row leads to at most one invocation of
    [update_building], and to one only if the resolver returned an
    identifier for it.  When the resolver returns [None] no update is
    invoked for the row, and the loop goes on to the next row if the
    decoding of the JSON columns succeeds; if the decoding raises, the run
    stops there with that exception. *)
Theorem at_most_one_update_per_row fuel base_url api_key json_columns line w :
  (List.length
     (updates (log (process_row fuel base_url api_key json_columns line w)))
   <= 1)%nat
  /\
  (forall b d,
     (b, d) ∈ updates (log (process_row fuel base_url api_key json_columns line w)) ->
     res (find_building fuel line base_url w) = Done b /\ b <> PNone)
  /\
  (res (find_building fuel line base_url w) = Done PNone ->
   updates (log (process_row fuel base_url api_key json_columns line w)) = []
   /\
   forall rest,
     main fuel base_url api_key (line :: rest) json_columns w
     = match parse_json_columns line json_columns with
       | Returned _ =>
           prepend (log (find_building fuel line base_url w))
             (main fuel base_url api_key rest json_columns
                (world (find_building fuel line base_url w)))
       | Raised e =>
           Out (Raise e) (world (find_building fuel line base_url w))
             (log (find_building fuel line base_url w))
       end).
Proof.
  split; [|split].
  - rewrite process_row_updates.
    destruct (res (find_building fuel line base_url w)) as [b| |];
      simpl; try lia.
    destruct (parse_json_columns line json_columns); simpl; try lia.
    destruct (is_None b); simpl; lia.
  - intros b d. rewrite process_row_updates.
    destruct (res (find_building fuel line base_url w)) as [b'| |];
      try (by intros ?%elem_of_nil).
    destruct (parse_json_columns line json_columns);
      try (by intros ?%elem_of_nil).
    destruct (is_None b') eqn:En; [by intros ?%elem_of_nil|].
    intros [= -> ->]%list_elem_of_singleton.
    split; [done|]. by intros ->.
  - intros Hf. split.
    + rewrite process_row_updates, Hf.
      by destruct (parse_json_columns line json_columns).
    + intros rest. rewrite main_cons, process_row_unfold. cbv zeta.
      rewrite Hf.
      by destruct (parse_json_columns line json_columns).
Qed.



(** C9: the JSON columns are decoded before the loop looks at what the
    resolver returned.  For a row with a designated column whose string is
    not JSON the run ends with the exception of the decoding whatever the
    resolver returned, [None] included: nothing is logged after the events
    of the resolver, no update is invoked, and the rows that follow are not
    read. *)
Theorem invalid_json_aborts_before_skip fuel base_url api_key json_columns
    line rest w col s b :
  col ∈ json_columns -> line !! col = Some (PStr s) -> json_loads s = None ->
  res (find_building fuel line base_url w) = Done b ->
  exists e,
    parse_json_columns line json_columns = Raised e /\
    main fuel base_url api_key (line :: rest) json_columns w
    = Out (Raise e) (world (find_building fuel line base_url w))
        (log (find_building fuel line base_url w)) /\
    updates (log (main fuel base_url api_key (line :: rest) json_columns w))
    = [].
Proof.
  intros Hc Hl Hs Hf.
  destruct (parse_json_columns_invalid _ _ _ _ Hc Hl Hs) as [e He].
  exists e. split; [done|].
  assert (main fuel base_url api_key (line :: rest) json_columns w
          = Out (Raise e) (world (find_building fuel line base_url w))
              (log (find_building fuel line base_url w))) as ->.
  { rewrite main_cons, process_row_unfold. cbv zeta. by rewrite Hf, He. }
  split; [done|]. apply find_building_updates.
Qed.

End RowProperties.

(** ** What is printed *)

Section Output.
Context `{Collaborators}.
Implicit Types (w : World) (l : list event) (data line : gmap string pyval).

(** The last two strategies, by what their lookup yields. *)
Lemma find_building_uprn_unfold fuel data base_url w :
  find_building_uprn fuel data base_url w
  = match data !! "uprn" with
    | Some u =>
        let f := find_by_reference fuel base_url "uprn" u w in
        match res f with
        | Done v =>
            Out (Done v) (world f)
              (log f ++ [if is_None v then EvPrint [PStr "no_match"; PDict data]
                         else EvPrint [PStr "match_by_uprn"; u; v]])
        | Raise e => Out (Raise e) (world f) (log f)
        | Diverge => Out Diverge (world f) (log f)
        end
    | None => Out (Done PNone) w [EvPrint [PStr "no_match"; PDict data]]
    end.
Proof.
  unfold find_building_uprn.
  destruct (data !! "uprn") as [u|]; [|done].
  unfold bind at 1. cbv zeta.
  destruct (find_by_reference fuel base_url "uprn" u w) as [[v| |] w1 l1];
    simpl; try done.
  by destruct v.
Qed.

Lemma find_building_toid_unfold fuel data base_url w :
  find_building_toid fuel data base_url w
  = match data !! "toid" with
    | Some t =>
        let f := find_by_reference fuel base_url "toid" t w in
        match res f with
        | Done v =>
            if is_None v then
              prepend (log f) (find_building_uprn fuel data base_url (world f))
            else
              Out (Done v) (world f)
                (log f ++ [EvPrint [PStr "match_by_toid"; t; v]])
        | Raise e => Out (Raise e) (world f) (log f)
        | Diverge => Out Diverge (world f) (log f)
        end
    | None => find_building_uprn fuel data base_url w
    end.
Proof.
  unfold find_building_toid.
  destruct (data !! "toid") as [t|]; [|done].
  unfold bind at 1. cbv zeta.
  destruct (find_by_reference fuel base_url "toid" t w) as [[v| |] w1 l1];
    simpl; try done.
  by destruct v.
Qed.

(** The resolver prints one line when it returns, and none before. *)
Lemma find_building_prints fuel data base_url w :
  match res (find_building fuel data base_url w) with
  | Done b =>
      exists args,
        prints (log (find_building fuel data base_url w)) = [args] /\
        resolution_line data b args
  | _ => prints (log (find_building fuel data base_url w)) = []
  end.
Proof.
  assert (forall w0,
    match res (find_building_uprn fuel data base_url w0) with
    | Done b =>
        exists args,
          prints (log (find_building_uprn fuel data base_url w0)) = [args] /\
          resolution_line data b args
    | _ => prints (log (find_building_uprn fuel data base_url w0)) = []
    end) as Hu.
  { intros w0. rewrite find_building_uprn_unfold.
    destruct (data !! "uprn") as [u|] eqn:Eu.
    - cbv zeta.
      pose proof (find_by_reference_prints fuel base_url "uprn" u w0) as Hp.
      destruct (find_by_reference fuel base_url "uprn" u w0)
        as [[v| |] w1 l1]; simpl in *; try done.
      rewrite prints_app, Hp. unfold resolution_line.
      destruct (is_None v) eqn:En; simpl.
      + eexists. split; done.
      + eexists. split; [done|]. right. right. by exists u.
    - simpl. eexists. split; done. }
  assert (forall w0,
    match res (find_building_toid fuel data base_url w0) with
    | Done b =>
        exists args,
          prints (log (find_building_toid fuel data base_url w0)) = [args] /\
          resolution_line data b args
    | _ => prints (log (find_building_toid fuel data base_url w0)) = []
    end) as Ht.
  { intros w0. rewrite find_building_toid_unfold.
    destruct (data !! "toid") as [t|] eqn:Et; [|apply Hu].
    cbv zeta.
    pose proof (find_by_reference_prints fuel base_url "toid" t w0) as Hp.
    destruct (find_by_reference fuel base_url "toid" t w0)
      as [[v| |] w1 l1]; simpl in *; try done.
    destruct (is_None v) eqn:En; simpl.
    - specialize (Hu w1).
      destruct (res (find_building_uprn fuel data base_url w1));
        rewrite prints_app, Hp; done.
    - rewrite prints_app, Hp. eexists. split; [done|].
      unfold resolution_line. rewrite En. right. left. by exists t. }
  unfold find_building.
  destruct (data !! "building_id") as [b|] eqn:Eb; [|apply Ht].
  destruct (is_None b) eqn:En; simpl; [apply Ht|].
  eexists. split; [done|]. unfold resolution_line. rewrite En. by left.
Qed.

(** Every line of the six forms. *)
Lemma resolution_line_form data b args :
  resolution_line data b args -> output_form args = true.
Proof.
  unfold resolution_line. destruct (is_None b).
  - by intros ->.
  - intros [[_ ->]|[(t & _ & ->)|(u & _ & ->)]]; by destruct b.
Qed.

Lemma find_building_uprn_reports fuel data base_url w1 b :
  res (find_building_uprn fuel data base_url w1) = Done b ->
  exists args,
    prints (log (find_building_uprn fuel data base_url w1)) = [args] /\
    ((exists u,
        data !! "uprn" = Some u /\
        res (find_by_reference fuel base_url "uprn" u w1) = Done b /\
        b <> PNone /\
        args = [PStr "match_by_uprn"; u; b])
     \/
     (b = PNone /\
      args = [PStr "no_match"; PDict data] /\
      (data !! "uprn" = None \/
       exists u,
         data !! "uprn" = Some u /\
         res (find_by_reference fuel base_url "uprn" u w1) = Done PNone))).
Proof.
  rewrite find_building_uprn_unfold.
  destruct (data !! "uprn") as [u|] eqn:Eu.
  - cbv zeta.
    pose proof (find_by_reference_prints fuel base_url "uprn" u w1) as Hp.
    destruct (find_by_reference fuel base_url "uprn" u w1)
      as [[v| |] w2 l2] eqn:Ef; simpl in *; try done.
    intros [= ->]. rewrite prints_app, Hp.
    destruct (is_None b) eqn:En; simpl.
    + destruct b; try done. eexists. split; [done|].
      right. split; [done|]. split; [done|]. right.
      exists u. split; [done|]. by rewrite Ef.
    + eexists. split; [done|]. left. exists u.
      split; [done|]. split; [by rewrite Ef|].
      split; [by intros ->|done].
  - simpl. intros [= <-]. eexists. split; [done|]. right. auto.
Qed.

(** The line the resolver prints names the strategy that succeeded. *)
Lemma find_building_reports fuel data base_url w b :
  res (find_building fuel data base_url w) = Done b ->
  exists args,
    prints (log (find_building fuel data base_url w)) = [args] /\
    reports_strategy fuel data base_url w b args.
Proof.
  assert (res (find_building_toid fuel data base_url w) = Done b ->
    exists args,
      prints (log (find_building_toid fuel data base_url w)) = [args] /\
      ((exists t,
          data !! "toid" = Some t /\
          res (find_by_reference fuel base_url "toid" t w) = Done b /\
          b <> PNone /\
          args = [PStr "match_by_toid"; t; b])
       \/
       (exists w1,
          toid_found_nothing fuel data base_url w w1 /\
          ((exists u,
              data !! "uprn" = Some u /\
              res (find_by_reference fuel base_url "uprn" u w1) = Done b /\
              b <> PNone /\
              args = [PStr "match_by_uprn"; u; b])
           \/
           (b = PNone /\
            args = [PStr "no_match"; PDict data] /\
            (data !! "uprn" = None \/
             exists u,
               data !! "uprn" = Some u /\
               res (find_by_reference fuel base_url "uprn" u w1)
               = Done PNone)))))) as Ht.
  { unfold toid_found_nothing. rewrite find_building_toid_unfold.
    destruct (data !! "toid") as [t|] eqn:Et.
    - cbv zeta.
      pose proof (find_by_reference_prints fuel base_url "toid" t w) as Hp.
      destruct (find_by_reference fuel base_url "toid" t w)
        as [[v| |] w1 l1] eqn:Ef; simpl in *; try done.
      destruct (is_None v) eqn:En; simpl.
      + destruct v; try done. intros Hr.
        destruct (find_building_uprn_reports _ _ _ _ _ Hr) as (args & Hp' & Hc).
        exists args. rewrite prints_app, Hp, Hp'. split; [done|].
        right. exists w1. split; [|done]. right.
        exists t. split; [done|]. by rewrite Ef.
      + intros [= ->]. rewrite prints_app, Hp.
        eexists. split; [done|]. left. exists t.
        split; [done|]. split; [by rewrite Ef|].
        split; [by intros ->|done].
    - intros Hr.
      destruct (find_building_uprn_reports _ _ _ _ _ Hr) as (args & Hp' & Hc).
      exists args. split; [done|]. right. exists w. split; [by left|done]. }
  unfold reports_strategy, find_building.
  destruct (data !! "building_id") as [b'|] eqn:Eb.
  - destruct (is_None b') eqn:En; simpl.
    + destruct b'; try done. intros Hr.
      destruct (Ht Hr) as (args & Hp & Hc).
      exists args. split; [done|]. right. split; [|done].
      by intros b0 [= <-].
    + intros [= ->]. eexists. split; [done|]. left.
      repeat split; try done. by intros ->.
  - intros Hr. destruct (Ht Hr) as (args & Hp & Hc).
    exists args. split; [done|]. right. split; [done|done].
Qed.

(** A resolution has one report: the strategy, the value and the
    identifier are determined. *)
Lemma reports_strategy_unique fuel data base_url w b args1 args2 :
  reports_strategy fuel data base_url w b args1 ->
  reports_strategy fuel data base_url w b args2 ->
  args1 = args2.
Proof.
  assert (forall w1 w2,
    toid_found_nothing fuel data base_url w w1 ->
    toid_found_nothing fuel data base_url w w2 -> w1 = w2) as Hw.
  { intros w1 w2 [(Hn1 & ->)|(t1 & Ht1 & _ & <-)]
      [(Hn2 & ->)|(t2 & Ht2 & _ & <-)]; congruence. }
  assert (forall t w1,
    data !! "toid" = Some t ->
    res (find_by_reference fuel base_url "toid" t w) = Done b ->
    b <> PNone ->
    toid_found_nothing fuel data base_url w w1 -> False) as Hx.
  { intros t w1 Ht Hr Hb [(Hn & _)|(t' & Ht' & Hr' & _)]; congruence. }
  intros [(Hb1 & Hn1 & ->)|(Hb1 & H1)] [(Hb2 & Hn2 & ->)|(Hb2 & H2)];
    try done.
  - by destruct (Hn1 (Hb2 b Hb1)).
  - by destruct (Hn2 (Hb1 b Hb2)).
  - destruct H1 as [(t1 & Ht1 & Hr1 & Hn1 & ->)|(w1 & Hf1 & H1)];
      destruct H2 as [(t2 & Ht2 & Hr2 & Hn2 & ->)|(w2 & Hf2 & H2)].
    + congruence.
    + by destruct (Hx t1 w2).
    + by destruct (Hx t2 w1).
    + pose proof (Hw _ _ Hf1 Hf2) as <-.
      destruct H1 as [(u1 & Hu1 & _ & Hn1 & ->)|(-> & -> & _)];
        destruct H2 as [(u2 & Hu2 & _ & Hn2 & ->)|(Hb & -> & _)];
        congruence.
Qed.

(** C8, as the script has it: the resolver reports a row by one line when
    it returns, the strategy that succeeded with the value it matched and
    the identifier found ([match_by_building_id] with the identifier alone),
    or [no_match] with the row when no strategy succeeded; a lookup that
    finds nothing is not reported on its own.  Every line printed for a row
    has one of the six forms. *)
Theorem output_lines fuel base_url api_key json_columns line w :
  Forall (fun args => output_form args = true)
    (prints (log (process_row fuel base_url api_key json_columns line w)))
  /\
  (forall b,
     res (find_building fuel line base_url w) = Done b ->
     exists args,
       prints (log (find_building fuel line base_url w)) = [args] /\
       reports_strategy fuel line base_url w b args).
Proof.
  pose proof (find_building_prints fuel line base_url w) as Hf.
  split.
  - assert (Forall (fun args => output_form args = true)
              (prints (log (find_building fuel line base_url w)))) as Hp.
    { destruct (res (find_building fuel line base_url w)) as [b| |];
        try (rewrite Hf; constructor).
      destruct Hf as (args & -> & Hr).
      constructor; [|done]. by apply (resolution_line_form line b). }
    rewrite process_row_unfold. cbv zeta.
    destruct (res (find_building fuel line base_url w)) as [b| |];
      try done.
    destruct (parse_json_columns line json_columns) as [line'|e]; try done.
    destruct (is_None b); [done|]. simpl.
    rewrite prints_app. apply Forall_app. split; [done|].
    apply update_and_report_prints.
  - intros b Hb. by apply find_building_reports.
Qed.

(** C10, as the script has it: a row whose [building_id] is the empty
    string is resolved to the empty string, with no lookup by [toid] or
    [uprn]; if the decoding of the JSON columns succeeds the update is
    invoked with the empty identifier, and its request is sent. *)
Theorem empty_building_id_is_used fuel base_url api_key json_columns line w :
  line !! "building_id" = Some (PStr "") ->
  find_building fuel line base_url w
  = Out (Done (PStr "")) w [EvPrint [PStr "match_by_building_id"; PStr ""]]
  /\
  lookups (log (process_row fuel base_url api_key json_columns line w)) = []
  /\
  (forall line',
     parse_json_columns line json_columns = Returned line' ->
     updates (log (process_row fuel base_url api_key json_columns line w))
     = [(PStr "", drop_empty_sust_dec line')] /\
     ((0 < fuel)%nat ->
      exists r,
        EvPost base_url (PStr "") api_key (drop_empty_sust_dec line') r
        ∈ log (process_row fuel base_url api_key json_columns line w))).
Proof.
  intros Hb.
  assert (find_building fuel line base_url w
          = Out (Done (PStr "")) w
              [EvPrint [PStr "match_by_building_id"; PStr ""]]) as Hf.
  { unfold find_building. by rewrite Hb. }
  split; [done|]. split.
  - rewrite process_row_unfold. cbv zeta. rewrite Hf. simpl.
    destruct (parse_json_columns line json_columns) as [line'|e]; [|done].
    simpl. rewrite update_and_report_unfold. cbv zeta.
    assert (lookups (log (update_building fuel (PStr "")
              (drop_empty_sust_dec line') api_key base_url w)) = []) as Hl.
    { unfold update_building, bind, emit; simpl.
      apply (retry_omap_nil _ fuel). intros w'.
      by rewrite update_building_body_log. }
    destruct (update_building fuel (PStr "") (drop_empty_sust_dec line')
                api_key base_url w) as [[[code body]| |] w1 l1];
      simpl in *; try done.
    by rewrite lookups_app, Hl.
  - intros line' Hp. split.
    + by rewrite process_row_updates, Hf, Hp.
    + intros Hfuel.
      destruct (update_building_posts fuel (PStr "")
                  (drop_empty_sust_dec line') api_key base_url w Hfuel)
        as [r Hr].
      exists r. rewrite process_row_unfold. cbv zeta. rewrite Hf, Hp. simpl.
      apply elem_of_cons. right.
      rewrite update_and_report_unfold. cbv zeta.
      destruct (update_building fuel (PStr "") (drop_empty_sust_dec line')
                  api_key base_url w) as [[[code body]| |] w1 l1];
        simpl in *; try done.
      apply elem_of_app. by left.
Qed.

End Output.

(** ** The script on the scripted remote *)

Section Examples.
Import Scenario.

(** C1 as stated fails on scenario B: the row
    [{toid: "X123", height: "10"}] is resolved to ["7"] and the payload of
    the update is the row itself, [toid] included, not the row without its
    identifier columns. *)
Lemma update_payload_keeps_toid :
  exists b d,
    (b, d) ∈ updates (log (@process_row remote 1 "h" "k" [] row_b world_b)) /\
    b = PStr "7" /\
    d !! "toid" = Some (PStr "X123") /\
    d <> without_identifier_columns row_b.
Proof.
  exists (PStr "7"), row_b. split; [|split; [done|split; [done|]]].
  - vm_compute. apply list_elem_of_here.
  - intros Heq. apply (f_equal (fun m => m !! "toid")) in Heq.
    vm_compute in Heq. discriminate.
Qed.

Lemma update_payload_is_the_row_witness :
  exists line',
    @parse_json_columns remote row_b [] = Returned line' /\
    row_b = drop_empty_sust_dec line' /\
    (forall k, k ∈ identifier_columns -> k ∉ [] -> row_b !! k = row_b !! k).
Proof.
  apply (@update_payload_is_the_row remote 1 "h" "k" [] row_b world_b
           (PStr "7") row_b).
  vm_compute. apply list_elem_of_here.
Defined.

(** The [uprn] strategy after a [toid] lookup that found nothing. *)
Lemma find_building_strategy_order_witness :
  @find_building remote 1 row_tu "h" world_tu
  = @Out remote _ (Done (PStr "7")) ([], [Returned (200, ok_body)])
      ([EvGet "h" "toid" (PStr "X") (Returned (PList []))] ++
       [EvGet "h" "uprn" (PStr "U")
          (Returned (PList [candidate (PStr "7")]))] ++
       [EvPrint [PStr "match_by_uprn"; PStr "U"; PStr "7"]]).
Proof.
  destruct (@find_building_strategy_order remote 1 row_tu "h" world_tu)
    as [_ Hrest].
  destruct Hrest as [_ Huprn]; [by intros b [=]|].
  destruct (Huprn (([Returned (PList [candidate (PStr "7")])],
                    [Returned (200, ok_body)]) : script)
              [EvGet "h" "toid" (PStr "X") (Returned (PList []))])
    as [Hu _].
  - right. exists (PStr "X"). split; reflexivity.
  - apply (Hu (PStr "U") (PStr "7")); reflexivity.
Defined.

(** A lookup answered by one candidate, and one answered by none. *)
Lemma find_by_reference_sole_candidate_witness :
  @find_by_reference remote 1 "h" "toid" (PStr "X123") world_b
  = @Out remote _ (Done (PStr "7")) ([], [Returned (200, ok_body)])
      [EvGet "h" "toid" (PStr "X123")
         (Returned (PList [PDict {[ "building_id" := PStr "7" ]}]))]
  /\
  @find_by_reference remote 1 "h" "toid" (PStr "X999") world_c
  = @Out remote _ (Done PNone) ([], [Returned (200, ok_body)])
      [EvGet "h" "toid" (PStr "X999") (Returned (PList []))].
Proof.
  split.
  - apply (proj2 (proj2 (@find_by_reference_sole_candidate remote 0 "h" "toid"
                           (PStr "X123") world_b))); reflexivity.
  - apply (proj1 (proj2 (@find_by_reference_sole_candidate remote 0 "h" "toid"
                           (PStr "X999") world_c))); [reflexivity|by left].
Defined.

(** C4 as stated fails on a row that no strategy resolves and whose
    designated column [tags] does not hold JSON: the
    resolver returns [None], and the run stops with the exception of the
    decoding instead of going on to the row that follows. *)
Lemma skipped_row_may_stop_the_run :
  res (@find_building remote 1 row_c "h" world_c) = Done PNone /\
  res (@main remote 1 "h" "k" [row_c; row_b] ["tags"] world_c)
  = Raise JSONDecodeError /\
  @main remote 1 "h" "k" [row_c; row_b] ["tags"] world_c
  <> prepend (log (@find_building remote 1 row_c "h" world_c))
       (@main remote 1 "h" "k" [row_b] ["tags"]
          (world (@find_building remote 1 row_c "h" world_c))).
Proof.
  split; [reflexivity|]. split; [reflexivity|].
  intros Heq. apply (f_equal res) in Heq. vm_compute in Heq. discriminate.
Qed.

Lemma at_most_one_update_per_row_witness :
  updates (log (@process_row remote 1 "h" "k" [] row_c world_c)) = [].
Proof.
  apply (proj2 (proj2 (@at_most_one_update_per_row remote 1 "h" "k" []
                         row_c world_c))).
  reflexivity.
Defined.



(** C8 as stated fails on a row whose [toid] lookup finds nothing and whose
    [uprn] lookup finds one building: the [toid] lookup was made, and no
    line printed for the row names it. *)
Lemma failed_lookup_not_reported :
  ("toid", PStr "X")
  ∈ lookups (log (@process_row remote 1 "h" "k" [] row_tu world_tu)) /\
  ~ exists args,
      args ∈ prints (log (@process_row remote 1 "h" "k" [] row_tu world_tu)) /\
      reports_lookup "toid" (PStr "X") args.
Proof.
  split.
  - vm_compute. apply list_elem_of_here.
  - intros (args & Hin & Hname & _).
    assert (prints (log (@process_row remote 1 "h" "k" [] row_tu world_tu))
            = [[PStr "match_by_uprn"; PStr "U"; PStr "7"];
               [PStr "DEBUG"; PStr "7"; PInt 200; ok_body]]) as Hp
      by reflexivity.
    rewrite Hp in Hin. simpl in Hname.
    apply elem_of_cons in Hin as [->|Hin].
    { repeat (apply elem_of_cons in Hname as [Hname|Hname]; [discriminate|]).
      by apply elem_of_nil in Hname. }
    apply elem_of_cons in Hin as [->|Hin].
    { repeat (apply elem_of_cons in Hname as [Hname|Hname]; [discriminate|]).
      by apply elem_of_nil in Hname. }
    by apply elem_of_nil in Hin.
Qed.

(** The row resolved by [uprn] after its [toid] found nothing: its line
    names [uprn], and a line naming [toid] would not be its report. *)
Lemma output_lines_witness :
  exists args,
    prints (log (@find_building remote 1 row_tu "h" world_tu)) = [args] /\
    @reports_strategy remote 1 row_tu "h" world_tu (PStr "7") args.
Proof.
  apply (proj2 (@output_lines remote 1 "h" "k" [] row_tu world_tu)).
  reflexivity.
Defined.

Lemma failed_strategy_is_not_the_report :
  prints (log (@find_building remote 1 row_tu "h" world_tu))
  = [[PStr "match_by_uprn"; PStr "U"; PStr "7"]] /\
  ~ @reports_strategy remote 1 row_tu "h" world_tu (PStr "7")
      [PStr "match_by_toid"; PStr "X"; PStr "7"].
Proof.
  split; [reflexivity|].
  intros [(Hb & _)|(_ & [(t & Ht & Hr & _)|(w1 & _ & [(u & _ & _ & _ & Ha)|(Hb & _)])])].
  - vm_compute in Hb. discriminate.
  - assert (t = PStr "X") as -> by (vm_compute in Ht; congruence).
    vm_compute in Hr. discriminate.
  - discriminate.
  - discriminate.
Qed.

(** Scenario C with the column [tags] designated: no match, invalid JSON. *)
Lemma invalid_json_aborts_before_skip_witness :
  exists e,
    @parse_json_columns remote row_c ["tags"] = Raised e /\
    @main remote 1 "h" "k" [row_c; row_b] ["tags"] world_c
    = @Out remote _ (Raise e) (world (@find_building remote 1 row_c "h" world_c))
        (log (@find_building remote 1 row_c "h" world_c)) /\
    updates (log (@main remote 1 "h" "k" [row_c; row_b] ["tags"] world_c))
    = [].
Proof.
  apply (@invalid_json_aborts_before_skip remote 1 "h" "k" ["tags"] row_c
           [row_b] world_c "tags" "{" PNone).
  - apply list_elem_of_here.
  - reflexivity.
  - reflexivity.
  - reflexivity.
Defined.

(** C10 as stated fails on a row with an empty [building_id] whose
    designated column [tags] does not hold JSON: the empty string is the
    identifier resolved, and no update is invoked. *)
Lemma empty_building_id_without_update :
  row_e !! "building_id" = Some (PStr "") /\
  res (@find_building remote 1 row_e "h" world_b) = Done (PStr "") /\
  res (@main remote 1 "h" "k" [row_e] ["tags"] world_b)
  = Raise JSONDecodeError /\
  updates (log (@main remote 1 "h" "k" [row_e] ["tags"] world_b)) = [].
Proof. repeat split; reflexivity. Qed.

Lemma empty_building_id_is_used_witness :
  @find_building remote 1 row_e' "h" world_b
  = @Out remote _ (Done (PStr "")) world_b
      [EvPrint [PStr "match_by_building_id"; PStr ""]]
  /\
  updates (log (@process_row remote 1 "h" "k" [] row_e' world_b))
  = [(PStr "", drop_empty_sust_dec row_e')].
Proof.
  destruct (@empty_building_id_is_used remote 1 "h" "k" [] row_e' world_b)
    as (Hf & _ & Hu).
  - reflexivity.
  - split; [exact Hf|]. apply (Hu row_e'). reflexivity.
Defined.

End Examples.

(** ** The decorated functions under failing requests *)

Section Decorated.
Context `{Collaborators}.
Implicit Types (w : World) (l : list event) (data line : gmap string pyval).

Lemma posts_app l1 l2 : posts (l1 ++ l2) = posts l1 ++ posts l2.
Proof. apply omap_app. Qed.

Lemma gets_app l1 l2 : gets (l1 ++ l2) = gets l1 ++ gets l2.
Proof. apply omap_app. Qed.


(** When every attempt logs the same one item, the loop logs as many of it
    as it made attempts, and no more than its fuel. *)
Lemma retry_omap_replicate {A B} (f : event -> option B) (x : B) fuel
    (body : M A) w :
  (forall w', omap f (log (body w')) = [x]) ->
  exists m, (m <= fuel)%nat /\
            omap f (log (retry fuel body w)) = replicate m x.
Proof.
  intros Hb. revert w. induction fuel as [|fuel IH]; intros w; simpl.
  - by exists 0%nat.
  - destruct (res (body w)) eqn:E; simpl.
    + exists 1%nat. split; [lia|]. by rewrite Hb.
    + destruct (IH (world (body w))) as (m & Hm & Hl).
      exists (S m). split; [lia|]. by rewrite omap_app, Hb, Hl.
    + exists 1%nat. split; [lia|]. by rewrite Hb.
Qed.

(** After [n] attempts that raise and one that returns, the loop returns
    that value, having made [n + 1] attempts. *)
Lemma retry_eventually {A B} (f : event -> option B) (x : B) n fuel
    (body : M A) w w' a :
  (forall w0, omap f (log (body w0)) = [x]) ->
  after_failures n body w = Some w' ->
  res (body w') = Done a ->
  (n < fuel)%nat ->
  res (retry fuel body w) = Done a /\
  world (retry fuel body w) = world (body w') /\
  omap f (log (retry fuel body w)) = replicate (S n) x.
Proof.
  intros Hb. revert fuel w. induction n as [|n IH]; intros fuel w; simpl.
  - intros [= ->] Ha Hf. destruct fuel as [|fuel]; [lia|].
    rewrite (retry_first _ _ _ _ Ha). by rewrite Hb.
  - destruct (res (body w)) as [|e|] eqn:E; try done.
    intros Hn Ha Hf. destruct fuel as [|fuel]; [lia|].
    rewrite (retry_again _ _ _ _ E). simpl.
    destruct (IH fuel (world (body w)) Hn Ha) as (H1 & H2 & H3); [lia|].
    repeat split; try done.
    by rewrite omap_app, Hb, H3.
Qed.

(** When every attempt raises, the loop uses up its fuel. *)
Lemma retry_stuck {A B} (f : event -> option B) (x : B) fuel (body : M A) w :
  (forall w0, omap f (log (body w0)) = [x]) ->
  (forall w0, exists e, res (body w0) = Raise e) ->
  res (retry fuel body w) = Diverge /\
  omap f (log (retry fuel body w)) = replicate fuel x.
Proof.
  intros Hb Hr. revert w. induction fuel as [|fuel IH]; intros w; simpl.
  - done.
  - destruct (Hr w) as [e He]. rewrite He. simpl.
    destruct (IH (world (body w))) as [H1 H2].
    split; [done|]. by rewrite omap_app, Hb, H2.
Qed.

Lemma find_by_reference_body_gets base_url ref_key ref_id w :
  gets (log (find_by_reference_body base_url ref_key ref_id w))
  = [(base_url, ref_key, ref_id)].
Proof. by rewrite find_by_reference_body_log. Qed.

Lemma update_building_body_posts b d api_key base_url w :
  posts (log (update_building_body b d api_key base_url w))
  = [(base_url, b, api_key, d)].
Proof. by rewrite update_building_body_log. Qed.




(** X2: when the first [n] requests of a lookup fail (the request raises,
    or its answer is one the selection raises on) and the next one is
    answered, the lookup returns what the selection makes of that answer,
    having sent [n + 1] requests, all to the same URL with the same key and
    value. *)
Theorem find_by_reference_eventually n fuel base_url ref_key ref_id w w' v :
  after_failures n (find_by_reference_body base_url ref_key ref_id) w
  = Some w' ->
  res (find_by_reference_body base_url ref_key ref_id w') = Done v ->
  (n < fuel)%nat ->
  res (find_by_reference fuel base_url ref_key ref_id w) = Done v /\
  world (find_by_reference fuel base_url ref_key ref_id w)
  = world (find_by_reference_body base_url ref_key ref_id w') /\
  gets (log (find_by_reference fuel base_url ref_key ref_id w))
  = replicate (S n) (base_url, ref_key, ref_id).
Proof.
  intros Hn Hv Hf. unfold find_by_reference, gets.
  apply (retry_eventually _ _ n fuel _ w w' v); try done.
  intros w0. apply find_by_reference_body_gets.
Qed.

(** X3: a lookup whose every request fails never returns: whatever the
    number of attempts followed, it is still retrying after them, and has
    sent one request per attempt. *)
Theorem find_by_reference_stuck fuel base_url ref_key ref_id w :
  (forall w0, exists e,
     res (find_by_reference_body base_url ref_key ref_id w0) = Raise e) ->
  res (find_by_reference fuel base_url ref_key ref_id w) = Diverge /\
  gets (log (find_by_reference fuel base_url ref_key ref_id w))
  = replicate fuel (base_url, ref_key, ref_id).
Proof.
  intros Hr. unfold find_by_reference, gets.
  apply retry_stuck; [|done].
  intros w0. apply find_by_reference_body_gets.
Qed.

Lemma py_eq_str_true v s : py_eq_str v s = true <-> v = PStr s.
Proof.
  destruct v; simpl; try (split; [done|by intros [=]]).
  rewrite bool_decide_eq_true. split; [by intros ->|by intros [= ->]].
Qed.

(** X4: the answers the selection raises on.  A list makes it raise exactly
    when it has one element, other than the string [error], that is not an
    object with a [building_id]; an object makes it raise exactly when it has
    one key and that key is not [error], and the exception is then the
    [KeyError] of [buildings[0]]. *)
Theorem select_building_id_raises :
  (forall (cs : list pyval) e,
     select_building_id (PList cs) = Raised e <->
     exists c, cs = [c] /\ c <> PStr "error" /\
               py_getitem c "building_id" = Raised e)
  /\
  (forall (d : gmap string pyval) e,
     select_building_id (PDict d) = Raised e <->
     size d = 1%nat /\ d !! "error" = None /\ e = KeyError).
Proof.
  split.
  - intros cs e. destruct cs as [|c [|c' cs]].
    + split; [done|]. by intros (c & [=] & _).
    + unfold select_building_id. simpl.
      destruct (py_eq_str c "error") eqn:Ec; simpl.
      * apply py_eq_str_true in Ec as ->.
        split; [done|]. by intros (c & [= <-] & Hc & _).
      * split.
        -- intros Hg. exists c. repeat split; try done.
           intros ->. by vm_compute in Ec.
        -- by intros (c0 & [= <-] & _ & Hg).
    + rewrite select_building_id_many. split; [done|].
      by intros (c0 & [=] & _).
  - intros d e. unfold select_building_id. simpl.
    destruct (decide (size d = 0%nat)) as [Hz|Hz].
    + rewrite bool_decide_eq_true_2 by done. simpl.
      split; [done|]. intros (Hs & _). lia.
    + rewrite bool_decide_eq_false_2 by done. simpl.
      destruct (d !! "error") as [x|] eqn:Ee.
      * rewrite bool_decide_eq_true_2 by eauto.
        split; [done|]. by intros (_ & [=] & _).
      * rewrite bool_decide_eq_false_2 by (by intros [x [=]]).
        destruct (decide (size d = 1%nat)) as [H1|H1].
        -- rewrite bool_decide_eq_true_2 by done.
           split; [by intros [= <-]|by intros (_ & _ & ->)].
        -- rewrite bool_decide_eq_false_2 by done.
           split; [done|]. by intros (? & _).
Qed.

(** X5: the requests of one invocation of [update_building] are copies of
    one another: each goes to the same URL with the identifier, the API key
    and the payload of the invocation, one per attempt.  When the first [n]
    fail and the next is answered, the invocation returns that answer after
    [n + 1] requests. *)
Theorem update_building_resends_same_request fuel b d api_key base_url w :
  (exists m, (m <= fuel)%nat /\
     posts (log (update_building fuel b d api_key base_url w))
     = replicate m (base_url, b, api_key, d))
  /\
  (forall n w' r,
     after_failures n (update_building_body b d api_key base_url) w
     = Some w' ->
     res (update_building_body b d api_key base_url w') = Done r ->
     (n < fuel)%nat ->
     res (update_building fuel b d api_key base_url w) = Done r /\
     posts (log (update_building fuel b d api_key base_url w))
     = replicate (S n) (base_url, b, api_key, d)).
Proof.
  split.
  - destruct (retry_omap_replicate
                (fun e => match e with
                          | EvPost u b k d _ => Some (u, b, k, d)
                          | _ => None
                          end) (base_url, b, api_key, d) fuel
                (update_building_body b d api_key base_url) w)
      as (m & Hm & Hl).
    { intros w'. apply update_building_body_posts. }
    exists m. split; [done|].
    unfold update_building, bind, emit; simpl.
    destruct (res (retry fuel (update_building_body b d api_key base_url) w));
      simpl; exact Hl.
  - intros n w' r Hn Hr Hf.
    destruct (retry_eventually
                (fun e => match e with
                          | EvPost u b k d _ => Some (u, b, k, d)
                          | _ => None
                          end) (base_url, b, api_key, d) n fuel
                (update_building_body b d api_key base_url) w w' r
                (fun w0 => update_building_body_posts b d api_key base_url w0)
                Hn Hr Hf)
      as (H1 & _ & H3).
    unfold update_building, bind, emit; simpl.
    rewrite H1. simpl. split; [done|]. exact H3.
Qed.

End Decorated.

(** ** More on the JSON columns and the payload *)

Section Payload.
Context `{Collaborators}.
Implicit Types (w : World) (l : list event) (data line : gmap string pyval).

(** X6: the payload of an update never holds an empty [sust_dec]: when the
    decoded row has [sust_dec] equal to the empty string the payload is that
    row without the column, and otherwise the payload is the decoded row,
    whatever [sust_dec] holds. *)
Theorem payload_drops_empty_sust_dec fuel base_url api_key json_columns
    line w b d :
  (b, d) ∈ updates (log (process_row fuel base_url api_key json_columns line w)) ->
  d !! "sust_dec" <> Some (PStr "") /\
  exists line',
    parse_json_columns line json_columns = Returned line' /\
    (line' !! "sust_dec" = Some (PStr "") -> d = delete "sust_dec" line') /\
    (line' !! "sust_dec" <> Some (PStr "") -> d = line').
Proof.
  rewrite process_row_updates.
  destruct (res (find_building fuel line base_url w)) as [b'| |];
    try (by intros ?%elem_of_nil).
  destruct (parse_json_columns line json_columns) as [line'|e] eqn:Ep;
    try (by intros ?%elem_of_nil).
  destruct (is_None b'); [by intros ?%elem_of_nil|].
  intros [= -> ->]%list_elem_of_singleton.
  unfold drop_empty_sust_dec.
  destruct (line' !! "sust_dec") as [v|] eqn:Es.
  - destruct (py_eq_str v "") eqn:Ev.
    + apply py_eq_str_true in Ev as ->. split.
      * by rewrite lookup_delete_eq.
      * exists line'. split; [done|]. split; [done|].
        intros Hx. by destruct Hx.
    + split.
      * rewrite Es. intros [= ->]. by vm_compute in Ev.
      * exists line'. split; [done|]. split; [|done].
        rewrite Es. intros [= ->]. by vm_compute in Ev.
  - split; [by rewrite Es|]. exists line'. split; [done|].
    split; [by rewrite Es|done].
Qed.

(** X7: decoding never adds or removes a column: the row
    [parse_json_columns] returns has the columns of the row it was given. *)
Theorem parse_json_columns_keeps_columns json_columns line line' :
  parse_json_columns line json_columns = Returned line' ->
  dom line' = dom line.
Proof.
  revert line. induction json_columns as [|c cs IH]; intros line; simpl.
  - by intros [= ->].
  - destruct (line !! c) as [x|] eqn:Ex; [|done].
    destruct (py_json_loads x) as [j|]; [|done].
    intros Hp. rewrite (IH _ Hp), dom_insert_L.
    apply subseteq_union_1_L, singleton_subseteq_l.
    by apply elem_of_dom_2 in Ex.
Qed.

Lemma py_json_loads_not_str v :
  (forall s, v <> PStr s) -> py_json_loads v = Raised TypeError.
Proof. intros Hv. destruct v; try done. by destruct (Hv s). Qed.

Lemma parse_json_columns_not_str json_columns line col :
  col ∈ json_columns ->
  (forall s, line !! col <> Some (PStr s)) ->
  exists e, parse_json_columns line json_columns = Raised e.
Proof.
  revert line. induction json_columns as [|c cs IH]; intros line Hin Hl; simpl.
  - by apply elem_of_nil in Hin.
  - destruct (decide (c = col)) as [->|Hne].
    + destruct (line !! col) as [x|] eqn:Ex; [|eauto].
      rewrite py_json_loads_not_str; [eauto|].
      intros s ->. by apply (Hl s).
    + apply elem_of_cons in Hin as [->|Hin]; [done|].
      destruct (line !! c) as [x|]; [|eauto].
      destruct (py_json_loads x) as [j|]; [|eauto].
      apply IH; [done|]. intros s. rewrite lookup_insert_ne by done. apply Hl.
Qed.

(** X8: a designated column that the row lacks, or whose value in the row is
    not a string ([None] in a short line), makes [parse_json_columns] raise,
    and the row is then never sent: no update is invoked for it. *)
Theorem parse_json_columns_needs_strings fuel base_url api_key json_columns
    line col w :
  col ∈ json_columns ->
  (forall s, line !! col <> Some (PStr s)) ->
  (exists e, parse_json_columns line json_columns = Raised e) /\
  updates (log (process_row fuel base_url api_key json_columns line w)) = [].
Proof.
  intros Hin Hl.
  destruct (parse_json_columns_not_str _ _ _ Hin Hl) as [e He].
  split; [eauto|].
  rewrite process_row_updates, He.
  by destruct (res (find_building fuel line base_url w)).
Qed.

(** X9: a column designated twice is decoded twice.  When no designated
    column of the row decodes to a string, a list of designated columns
    with a repetition always makes [parse_json_columns] raise. *)
Theorem parse_json_columns_repeated_column json_columns line :
  ~ NoDup json_columns ->
  (forall col s v,
     col ∈ json_columns -> line !! col = Some (PStr s) ->
     json_loads s = Some v -> forall s', v <> PStr s') ->
  exists e, parse_json_columns line json_columns = Raised e.
Proof.
  revert line. induction json_columns as [|c cs IH]; intros line Hnd Hv.
  - destruct Hnd. constructor.
  - simpl. destruct (line !! c) as [x|] eqn:Ex; [|eauto].
    destruct (py_json_loads x) as [j|] eqn:Ej; [|eauto].
    apply py_json_loads_Returned in Ej as (s & -> & Ej).
    assert (forall s', j <> PStr s') as Hj.
    { apply (Hv c s j); [apply list_elem_of_here|done|done]. }
    destruct (decide (c ∈ cs)) as [Hc|Hc].
    + apply (parse_json_columns_not_str cs _ c Hc).
      intros s'. rewrite lookup_insert_eq. intros [= ->]. by apply (Hj s').
    + apply IH.
      * intros Hcs. apply Hnd. by constructor.
      * intros col s0 v Hcol Hl Hs.
        destruct (decide (c = col)) as [->|Hne].
        -- rewrite lookup_insert_eq in Hl. injection Hl as ->.
           by destruct (Hj s0).
        -- rewrite lookup_insert_ne in Hl by done.
           apply (Hv col s0 v); [by apply list_elem_of_further|done|done].
Qed.

End Payload.

(** ** A whole run *)

Section Run.
Context `{Collaborators}.
Implicit Types (w : World) (l : list event) (data line : gmap string pyval).

Lemma bind_assoc {A B C} (m : M A) (k1 : A -> M B) (k2 : B -> M C) w :
  bind (bind m k1) k2 w = bind m (fun a => bind (k1 a) k2) w.
Proof.
  unfold bind. destruct (m w) as [[a|e|] w1 l1]; simpl; try done.
  destruct (k1 a w1) as [[b|e|] w2 l2]; simpl; try done.
  unfold prepend; simpl. by rewrite app_assoc.
Qed.

Lemma bind_ext {A B} (m : M A) (k1 k2 : A -> M B) w :
  (forall a w', k1 a w' = k2 a w') -> bind m k1 w = bind m k2 w.
Proof.
  intros Hk. unfold bind. destruct (res (m w)); try done. by rewrite Hk.
Qed.



Lemma process_row_prints_forms fuel base_url api_key json_columns line w :
  Forall (fun args => output_form args = true)
    (prints (log (process_row fuel base_url api_key json_columns line w))).
Proof.
  pose proof (find_building_prints fuel line base_url w) as Hf.
  assert (Forall (fun args => output_form args = true)
            (prints (log (find_building fuel line base_url w)))) as Hp.
  { destruct (res (find_building fuel line base_url w)) as [b| |];
      try (rewrite Hf; constructor).
    destruct Hf as (args & -> & Hr).
    constructor; [|done]. by apply (resolution_line_form line b). }
  rewrite process_row_unfold. cbv zeta.
  destruct (res (find_building fuel line base_url w)) as [b| |]; try done.
  destruct (parse_json_columns line json_columns) as [line'|e]; try done.
  destruct (is_None b); [done|]. simpl.
  rewrite prints_app. apply Forall_app. split; [done|].
  apply update_and_report_prints.
Qed.


(** X11: the rows are processed one after the other and independently: a
    run over two lists of rows put end to end is the run over the first
    list followed, if it reaches its end, by the run over the second from
    the world the first left. *)
Theorem main_app fuel base_url api_key rows1 rows2 json_columns w :
  main fuel base_url api_key (rows1 ++ rows2) json_columns w
  = bind (main fuel base_url api_key rows1 json_columns)
      (fun _ => main fuel base_url api_key rows2 json_columns) w.
Proof.
  revert w. induction rows1 as [|line rest IH]; intros w.
  - simpl. unfold bind, ret; simpl. by rewrite prepend_nil.
  - change (main fuel base_url api_key ((line :: rest) ++ rows2) json_columns w)
      with (bind (process_row fuel base_url api_key json_columns line)
              (fun _ => main fuel base_url api_key (rest ++ rows2) json_columns)
              w).
    change (main fuel base_url api_key (line :: rest) json_columns)
      with (bind (process_row fuel base_url api_key json_columns line)
              (fun _ => main fuel base_url api_key rest json_columns)).
    rewrite bind_assoc. apply bind_ext. intros _ w'. apply IH.
Qed.

(** X12: a run invokes [update_building] at most once per row: the updates
    of a run are never more than its rows. *)
Theorem main_updates_bounded fuel base_url api_key rows json_columns w :
  (List.length (updates (log (main fuel base_url api_key rows json_columns w)))
   <= List.length rows)%nat.
Proof.
  revert w. induction rows as [|line rest IH]; intros w; [done|].
  rewrite main_cons. cbv zeta.
  assert (List.length
            (updates (log (process_row fuel base_url api_key json_columns
                             line w))) <= 1)%nat as Hp.
  { rewrite process_row_updates.
    destruct (res (find_building fuel line base_url w)) as [b| |];
      simpl; try lia.
    destruct (parse_json_columns line json_columns); simpl; try lia.
    destruct (is_None b); simpl; lia. }
  destruct (res (process_row fuel base_url api_key json_columns line w));
    simpl; try lia.
  rewrite updates_app, length_app. specialize (IH (world
    (process_row fuel base_url api_key json_columns line w))). lia.
Qed.

(** X13: every line a run prints for its rows has one of the six forms,
    however the run ends. *)
Theorem main_prints_forms fuel base_url api_key rows json_columns w :
  Forall (fun args => output_form args = true)
    (prints (log (main fuel base_url api_key rows json_columns w))).
Proof.
  revert w. induction rows as [|line rest IH]; intros w; [constructor|].
  rewrite main_cons. cbv zeta.
  pose proof (process_row_prints_forms fuel base_url api_key json_columns
                line w) as Hp.
  destruct (res (process_row fuel base_url api_key json_columns line w));
    simpl; try done.
  rewrite prints_app. apply Forall_app. split; [done|apply IH].
Qed.

End Run.

(** ** What the resolver asks and where its identifier comes from *)

Section ResolverRequests.
Context `{Collaborators}.
Implicit Types (w : World) (l : list event) (data line : gmap string pyval).

Lemma find_by_reference_gets fuel base_url ref_key ref_id w x :
  x ∈ gets (log (find_by_reference fuel base_url ref_key ref_id w)) ->
  x = (base_url, ref_key, ref_id).
Proof.
  destruct (retry_omap_replicate
              (fun e => match e with
                        | EvGet u k i _ => Some (u, k, i)
                        | _ => None
                        end) (base_url, ref_key, ref_id) fuel
              (find_by_reference_body base_url ref_key ref_id) w)
    as (m & _ & Hl).
  { intros w'. apply find_by_reference_body_gets. }
  unfold find_by_reference, gets. rewrite Hl.
  by intros [-> _]%elem_of_replicate.
Qed.

Lemma find_building_uprn_gets fuel data base_url w x :
  x ∈ gets (log (find_building_uprn fuel data base_url w)) ->
  exists i, data !! "uprn" = Some i /\ x = (base_url, "uprn", i).
Proof.
  rewrite find_building_uprn_unfold.
  destruct (data !! "uprn") as [u|]; [|by intros ?%elem_of_nil].
  cbv zeta. intros Hx. exists u. split; [done|].
  apply (find_by_reference_gets fuel base_url "uprn" u w).
  destruct (find_by_reference fuel base_url "uprn" u w) as [[v| |] w1 l1];
    simpl in *; try done.
  rewrite gets_app in Hx. apply elem_of_app in Hx as [Hx|Hx]; [done|].
  destruct (is_None v); by apply elem_of_nil in Hx.
Qed.

Lemma find_building_toid_gets fuel data base_url w x :
  x ∈ gets (log (find_building_toid fuel data base_url w)) ->
  exists k i, data !! k = Some i /\ x = (base_url, k, i) /\
              (k = "toid" \/ k = "uprn").
Proof.
  rewrite find_building_toid_unfold.
  destruct (data !! "toid") as [t|] eqn:Et.
  - cbv zeta. intros Hx.
    pose proof (find_by_reference_gets fuel base_url "toid" t w x) as Hf.
    destruct (find_by_reference fuel base_url "toid" t w) as [[v| |] w1 l1];
      simpl in *; try (exists "toid", t; by auto).
    destruct (is_None v); simpl in Hx;
      rewrite gets_app in Hx; apply elem_of_app in Hx as [Hx|Hx];
      try (exists "toid", t; by auto).
    + apply find_building_uprn_gets in Hx as (i & Hi & ->).
      exists "uprn", i. by auto.
    + by apply elem_of_nil in Hx.
  - intros (i & Hi & ->)%find_building_uprn_gets.
    exists "uprn", i. by auto.
Qed.

(** X14: the resolver sends reference requests only to the base URL it was
    given, only under the keys [toid] and [uprn], and only with the value the
    row has in that column; it sends none for a row whose [building_id] is
    present and not [None]. *)
Theorem find_building_requests fuel data base_url w u k i :
  (u, k, i) ∈ gets (log (find_building fuel data base_url w)) ->
  u = base_url /\
  data !! k = Some i /\
  (k = "toid" \/ k = "uprn") /\
  (forall b, data !! "building_id" = Some b -> b = PNone).
Proof.
  unfold find_building.
  destruct (data !! "building_id") as [b|] eqn:Eb.
  - destruct (is_None b) eqn:En; simpl.
    + intros (k' & i' & Hi & [= -> -> ->] & Hk)%find_building_toid_gets.
      repeat split; try done. intros b' [= <-]. by destruct b.
    + by intros ?%elem_of_nil.
  - intros (k' & i' & Hi & [= -> -> ->] & Hk)%find_building_toid_gets.
    by repeat split.
Qed.

Lemma find_by_reference_found fuel base_url ref_key ref_id w v :
  res (find_by_reference fuel base_url ref_key ref_id w) = Done v ->
  v <> PNone ->
  exists d,
    EvGet base_url ref_key ref_id (Returned (PList [PDict d]))
    ∈ log (find_by_reference fuel base_url ref_key ref_id w) /\
    d !! "building_id" = Some v.
Proof.
  intros Hr Hv.
  destruct (find_by_reference_Done _ _ _ _ _ _ Hr) as (l & b & Hs & Hl).
  destruct (select_building_id_found _ _ Hs Hv) as (d & -> & Hd).
  exists d. split; [|done]. rewrite Hl. apply elem_of_app. right.
  apply list_elem_of_here.
Qed.

Lemma find_building_uprn_origin fuel data base_url w b :
  res (find_building_uprn fuel data base_url w) = Done b -> b <> PNone ->
  exists i d,
    data !! "uprn" = Some i /\
    EvGet base_url "uprn" i (Returned (PList [PDict d]))
    ∈ log (find_building_uprn fuel data base_url w) /\
    d !! "building_id" = Some b.
Proof.
  rewrite find_building_uprn_unfold.
  destruct (data !! "uprn") as [u|]; [|by intros [= <-]].
  cbv zeta.
  pose proof (find_by_reference_found fuel base_url "uprn" u w) as Hf.
  destruct (find_by_reference fuel base_url "uprn" u w) as [[v| |] w1 l1];
    simpl in *; try done.
  intros [= ->] Hb. destruct (Hf b eq_refl Hb) as (d & Hin & Hd).
  exists u, d. repeat split; try done. apply elem_of_app. by left.
Qed.

(** X15: the resolver does not make identifiers up.  An identifier it
    returns is the row's own [building_id], or the [building_id] of the
    sole candidate of an answer it received to a request for the row's
    [toid] or [uprn]. *)
Theorem find_building_identifier_origin fuel data base_url w b :
  res (find_building fuel data base_url w) = Done b ->
  b <> PNone ->
  data !! "building_id" = Some b \/
  exists k i d,
    (k = "toid" \/ k = "uprn") /\
    data !! k = Some i /\
    EvGet base_url k i (Returned (PList [PDict d]))
    ∈ log (find_building fuel data base_url w) /\
    d !! "building_id" = Some b.
Proof.
  assert (res (find_building_toid fuel data base_url w) = Done b ->
          b <> PNone ->
          exists k i d,
            (k = "toid" \/ k = "uprn") /\
            data !! k = Some i /\
            EvGet base_url k i (Returned (PList [PDict d]))
            ∈ log (find_building_toid fuel data base_url w) /\
            d !! "building_id" = Some b) as Ht.
  { rewrite find_building_toid_unfold.
    destruct (data !! "toid") as [t|] eqn:Et.
    - cbv zeta.
      pose proof (find_by_reference_found fuel base_url "toid" t w) as Hf.
      destruct (find_by_reference fuel base_url "toid" t w)
        as [[v| |] w1 l1]; simpl in *; try done.
      destruct (is_None v) eqn:En; simpl.
      + intros Hr Hb.
        destruct (find_building_uprn_origin _ _ _ _ _ Hr Hb)
          as (i & d & Hi & Hin & Hd).
        exists "uprn", i, d. repeat split; auto.
        apply elem_of_app. by right.
      + intros [= ->] Hb. destruct (Hf b eq_refl Hb) as (d & Hin & Hd).
        exists "toid", t, d. repeat split; auto.
        apply elem_of_app. by left.
    - intros Hr Hb.
      destruct (find_building_uprn_origin _ _ _ _ _ Hr Hb)
        as (i & d & Hi & Hin & Hd).
      exists "uprn", i, d. repeat split; auto. }
  unfold find_building.
  destruct (data !! "building_id") as [b'|] eqn:Eb.
  - destruct (is_None b') eqn:En; simpl.
    + intros Hr Hb. right. by apply Ht.
    + intros [= ->] _. by left.
  - intros Hr Hb. right. by apply Ht.
Qed.

End ResolverRequests.

(** ** The command line *)

Section CommandLine.

Lemma py_split_nonempty sep s : py_split sep s <> [].
Proof.
  destruct s as [|c rest]; simpl; [done|].
  destruct (Ascii.eqb c sep); [done|].
  by destruct (py_split sep rest).
Qed.

Lemma concat_cons_char sep c piece pieces :
  String.concat sep (String c piece :: pieces)
  = String c (String.concat sep (piece :: pieces)).
Proof. by destruct pieces. Qed.

Lemma py_split_join sep s :
  String.concat (String sep EmptyString) (py_split sep s) = s.
Proof.
  induction s as [|c rest IH]; [done|].
  pose proof (py_split_nonempty sep rest) as Hne.
  cbn [py_split].
  destruct (Ascii.eqb c sep) eqn:Ec.
  - apply Ascii.eqb_eq in Ec as ->.
    destruct (py_split sep rest) as [|p ps]; [done|].
    change (String.concat (String sep "") ("" :: p :: ps))
      with (String sep (String.concat (String sep "") (p :: ps))).
    by rewrite IH.
  - destruct (py_split sep rest) as [|p ps]; [done|].
    by rewrite concat_cons_char, IH.
Qed.

Lemma is_infix_sep_cons sep c p :
  Ascii.eqb c sep = false ->
  is_infix (String sep EmptyString) (String c p)
  = is_infix (String sep EmptyString) p.
Proof.
  intros Hc. simpl. destruct (ascii_dec sep c) as [->|Hne]; [|done].
  by rewrite Ascii.eqb_refl in Hc.
Qed.

Lemma py_split_pieces sep s :
  Forall (fun piece => is_infix (String sep EmptyString) piece = false)
    (py_split sep s).
Proof.
  induction s as [|c rest IH]; simpl.
  - by constructor.
  - destruct (Ascii.eqb c sep) eqn:Ec.
    + by constructor.
    + destruct (py_split sep rest) as [|p ps].
      * constructor; [|done]. by rewrite is_infix_sep_cons.
      * apply Forall_cons in IH as [Hp Hps].
        constructor; [|done]. by rewrite is_infix_sep_cons.
Qed.

(** X16: when a fifth element of [sys.argv] is given, the designated
    columns are its pieces between commas: there is at least one (the empty
    name, for an empty argument), none contains a comma, and joined by
    commas they give the argument back. *)
Theorem command_line_json_columns argv url api_key filename json_columns
    columns :
  command_line argv = Some (url, api_key, filename, json_columns) ->
  argv !! 4%nat = Some columns ->
  String.concat "," json_columns = columns /\
  json_columns <> [] /\
  Forall (fun col => is_infix "," col = false) json_columns.
Proof.
  destruct argv as [|a0 [|a1 [|a2 [|a3 [|a4 rest]]]]]; simpl; try done.
  intros [= _ _ _ <-] [= <-].
  split; [apply py_split_join|].
  split; [apply py_split_nonempty|apply py_split_pieces].
Qed.

End CommandLine.

(** ** More runs on the scripted remotes *)

Section MoreExamples.
Import Scenario.

(** One failed request, then the answer with one candidate. *)
Lemma find_by_reference_eventually_witness :
  res (@find_by_reference remote 2 "h" "toid" (PStr "X123") world_r)
  = Done (PStr "7") /\
  world (@find_by_reference remote 2 "h" "toid" (PStr "X123") world_r)
  = world (@find_by_reference_body remote "h" "toid" (PStr "X123")
             ([Returned (PList [candidate (PStr "7")])], world_r.2)) /\
  gets (log (@find_by_reference remote 2 "h" "toid" (PStr "X123") world_r))
  = replicate 2 ("h", "toid", PStr "X123").
Proof.
  apply (@find_by_reference_eventually remote 1 2 "h" "toid" (PStr "X123")
           world_r ([Returned (PList [candidate (PStr "7")])], world_r.2)
           (PStr "7")).
  - reflexivity.
  - reflexivity.
  - lia.
Defined.

(** A remote whose every answer is a candidate without [building_id]. *)
Lemma find_by_reference_stuck_witness :
  res (@find_by_reference broken 5 "h" "toid" (PStr "X123") tt) = Diverge /\
  gets (log (@find_by_reference broken 5 "h" "toid" (PStr "X123") tt))
  = replicate 5 ("h", "toid", PStr "X123").
Proof.
  apply (@find_by_reference_stuck broken 5 "h" "toid" (PStr "X123") tt).
  intros []. exists KeyError. reflexivity.
Defined.

(** An update whose first request fails and whose second is answered. *)
Lemma update_building_resends_same_request_witness :
  res (@update_building remote 2 (PStr "7") row_b "k" "h" world_r)
  = Done (200, ok_body) /\
  posts (log (@update_building remote 2 (PStr "7") row_b "k" "h" world_r))
  = replicate 2 ("h", PStr "7", "k", row_b).
Proof.
  apply (proj2 (@update_building_resends_same_request remote 2 (PStr "7")
                  row_b "k" "h" world_r)
           1%nat (world_r.1, [Returned (200, ok_body)]) (200, ok_body)).
  - reflexivity.
  - reflexivity.
  - lia.
Defined.

(** A row with an empty [sust_dec]. *)
Lemma payload_drops_empty_sust_dec_witness :
  delete "sust_dec" row_s !! "sust_dec" <> Some (PStr "") /\
  exists line',
    @parse_json_columns remote row_s [] = Returned line' /\
    (line' !! "sust_dec" = Some (PStr "") ->
     delete "sust_dec" row_s = delete "sust_dec" line') /\
    (line' !! "sust_dec" <> Some (PStr "") -> delete "sust_dec" row_s = line').
Proof.
  apply (@payload_drops_empty_sust_dec remote 1 "h" "k" [] row_s
           (world_u 200) (PStr "42") (delete "sust_dec" row_s)).
  vm_compute. apply list_elem_of_here.
Defined.

Lemma parse_json_columns_keeps_columns_witness :
  dom (<["levels" := PList [PInt 1; PInt 2; PInt 3]]> row_j) = dom row_j.
Proof.
  apply (@parse_json_columns_keeps_columns remote ["levels"] row_j).
  reflexivity.
Defined.

(** The column [tags] is designated and the row has no such column. *)
Lemma parse_json_columns_needs_strings_witness :
  (exists e, @parse_json_columns remote row_b ["tags"] = Raised e) /\
  updates (log (@process_row remote 1 "h" "k" ["tags"] row_b world_b)) = [].
Proof.
  apply (@parse_json_columns_needs_strings remote 1 "h" "k" ["tags"] row_b
           "tags" world_b).
  - apply list_elem_of_here.
  - intros s. discriminate.
Defined.

(** The column [levels], an array, designated twice. *)
Lemma parse_json_columns_repeated_column_witness :
  exists e, @parse_json_columns remote row_j ["levels"; "levels"] = Raised e.
Proof.
  apply (@parse_json_columns_repeated_column remote ["levels"; "levels"] row_j).
  - intros Hnd. apply NoDup_cons in Hnd as [Hin _].
    apply Hin, list_elem_of_here.
  - intros col s v _ _ Hs s'. simpl in Hs. unfold loads in Hs.
    destruct (bool_decide (s = "[1,2,3]")); [|discriminate].
    injection Hs as <-. discriminate.
Defined.

(** The [uprn] request of a row whose [toid] is unknown. *)
Lemma find_building_requests_witness :
  "h" = "h" /\
  row_tu !! "uprn" = Some (PStr "U") /\
  ("uprn" = "toid" \/ "uprn" = "uprn") /\
  (forall b, row_tu !! "building_id" = Some b -> b = PNone).
Proof.
  apply (@find_building_requests remote 1 row_tu "h" world_tu
           "h" "uprn" (PStr "U")).
  vm_compute. apply list_elem_of_further, list_elem_of_here.
Defined.

(** Scenario B: the identifier is the one of the answer's sole candidate. *)
Lemma find_building_identifier_origin_witness :
  row_b !! "building_id" = Some (PStr "7") \/
  exists k i d,
    (k = "toid" \/ k = "uprn") /\
    row_b !! k = Some i /\
    EvGet "h" k i (Returned (PList [PDict d]))
    ∈ log (@find_building remote 1 row_b "h" world_b) /\
    d !! "building_id" = Some (PStr "7").
Proof.
  apply (@find_building_identifier_origin remote 1 row_b "h" world_b
           (PStr "7")).
  - reflexivity.
  - discriminate.
Defined.

(** Two columns designated on the command line. *)
Lemma command_line_json_columns_witness :
  String.concat "," ["current_landuse_group"; "date_url"]
  = "current_landuse_group,date_url" /\
  ["current_landuse_group"; "date_url"] <> [] /\
  Forall (fun col => is_infix "," col = false)
    ["current_landuse_group"; "date_url"].
Proof.
  apply (command_line_json_columns
           ["load_csv.py"; "https://colouring.london"; "key"; "data.csv";
            "current_landuse_group,date_url"]
           "https://colouring.london" "key" "data.csv").
  - reflexivity.
  - reflexivity.
Defined.

End MoreExamples.
